(** * CRYPTOPAY: the payment service of [cryp.py], embedded and verified

    The service is a Flask application.  Its handlers are embedded as pure
    functions over an explicit process state (the module-level dictionaries
    and the history file) and a [world] that answers the calls the handlers
    make to their collaborators (clock, rate provider, charge provider,
    webhook verifier, file system).

    Conventions of the embedding:
    - a Python [float] is a rational, with the three special values where
      the code can meet them ([pyfloat]); instants of [time.time()] are
      rationals;
    - a response is the object that [jsonify] serialises together with its
      HTTP status; an exception that leaves a handler is [Raise];
    - the history file is the list of flat JSON objects it holds (or it is
      missing or unreadable);
    - [SUPPORTED_CURRENCIES] and [SUPPORTED_CRYPTOS] are used by [cryp.py]
      but declared nowhere in it: they are parameters of the development.

    [iop.py], the minimal variant of the same service, keeps no state and
    validates nothing; the statements below are about [cryp.py]. *)

From Stdlib Require Import ZArith QArith Lia Ascii String.
From stdpp Require Import base option strings list gmap fin_maps.

Local Open Scope Z_scope.

(** ** hashlib.md5 (RFC 1321), on the bytes of a string *)
Module Md5.

Definition mask32 (x : Z) : Z := Z.land x 0xffffffff.
Definition add32 (x y : Z) : Z := mask32 (x + y).
Definition not32 (x : Z) : Z := Z.lxor x 0xffffffff.
Definition rotl32 (x n : Z) : Z :=
  mask32 (Z.lor (Z.shiftl x n) (Z.shiftr x (32 - n))).

(** floor(2^32 * abs(sin(i+1))) for i = 0..63 *)
Definition K : list Z :=
  [ 0xd76aa478; 0xe8c7b756; 0x242070db; 0xc1bdceee;
    0xf57c0faf; 0x4787c62a; 0xa8304613; 0xfd469501;
    0x698098d8; 0x8b44f7af; 0xffff5bb1; 0x895cd7be;
    0x6b901122; 0xfd987193; 0xa679438e; 0x49b40821;
    0xf61e2562; 0xc040b340; 0x265e5a51; 0xe9b6c7aa;
    0xd62f105d; 0x02441453; 0xd8a1e681; 0xe7d3fbc8;
    0x21e1cde6; 0xc33707d6; 0xf4d50d87; 0x455a14ed;
    0xa9e3e905; 0xfcefa3f8; 0x676f02d9; 0x8d2a4c8a;
    0xfffa3942; 0x8771f681; 0x6d9d6122; 0xfde5380c;
    0xa4beea44; 0x4bdecfa9; 0xf6bb4b60; 0xbebfbc70;
    0x289b7ec6; 0xeaa127fa; 0xd4ef3085; 0x04881d05;
    0xd9d4d039; 0xe6db99e5; 0x1fa27cf8; 0xc4ac5665;
    0xf4292244; 0x432aff97; 0xab9423a7; 0xfc93a039;
    0x655b59c3; 0x8f0ccc92; 0xffeff47d; 0x85845dd1;
    0x6fa87e4f; 0xfe2ce6e0; 0xa3014314; 0x4e0811a1;
    0xf7537e82; 0xbd3af235; 0x2ad7d2bb; 0xeb86d391 ].

(** per-round left-rotation amounts *)
Definition S : list Z :=
  [ 7; 12; 17; 22; 7; 12; 17; 22; 7; 12; 17; 22; 7; 12; 17; 22;
    5;  9; 14; 20; 5;  9; 14; 20; 5;  9; 14; 20; 5;  9; 14; 20;
    4; 11; 16; 23; 4; 11; 16; 23; 4; 11; 16; 23; 4; 11; 16; 23;
    6; 10; 15; 21; 6; 10; 15; 21; 6; 10; 15; 21; 6; 10; 15; 21 ].

Definition nthZ (l : list Z) (i : Z) : Z := nth (Z.to_nat i) l 0.

(** the message bytes followed by 0x80, zeros up to 56 mod 64, and the
    bit length as 8 little-endian bytes *)
Definition le_bytes (n : nat) (x : Z) : list Z :=
  map (fun i => Z.land (Z.shiftr x (8 * Z.of_nat i)) 0xff) (seq 0 n).

Definition pad (msg : list Z) : list Z :=
  let len := Z.of_nat (length msg) in
  let zeros := Z.to_nat ((55 - len) mod 64) in
  msg ++ [0x80] ++ repeat 0 zeros ++ le_bytes 8 (Z.land (8 * len) 0xffffffffffffffff).

Definition word_le (b0 b1 b2 b3 : Z) : Z :=
  Z.lor b0 (Z.lor (Z.shiftl b1 8) (Z.lor (Z.shiftl b2 16) (Z.shiftl b3 24))).

Fixpoint words (bs : list Z) : list Z :=
  match bs with
  | b0 :: b1 :: b2 :: b3 :: rest => word_le b0 b1 b2 b3 :: words rest
  | _ => []
  end.

Fixpoint chunks (fuel : nat) (ws : list Z) : list (list Z) :=
  match fuel, ws with
  | O, _ | _, [] => []
  | Datatypes.S fuel', _ => take 16 ws :: chunks fuel' (drop 16 ws)
  end.

Record regs := Regs { rA : Z; rB : Z; rC : Z; rD : Z }.

Definition init : regs :=
  Regs 0x67452301 0xefcdab89 0x98badcfe 0x10325476.

Definition step (M : list Z) (r : regs) (i : Z) : regs :=
  let '(Regs A B C D) := r in
  let '(F, g) :=
    if i <? 16 then (Z.lor (Z.land B C) (Z.land (not32 B) D), i)
    else if i <? 32 then (Z.lor (Z.land D B) (Z.land (not32 D) C), (5 * i + 1) mod 16)
    else if i <? 48 then (Z.lxor B (Z.lxor C D), (3 * i + 5) mod 16)
    else (Z.lxor C (Z.lor B (not32 D)), (7 * i) mod 16) in
  let F' := add32 (add32 (add32 F A) (nthZ K i)) (nthZ M g) in
  Regs D (add32 B (rotl32 F' (nthZ S i))) B C.

Definition compress (r : regs) (M : list Z) : regs :=
  let r' := foldl (step M) r (map Z.of_nat (seq 0 64)) in
  Regs (add32 (rA r) (rA r')) (add32 (rB r) (rB r'))
       (add32 (rC r) (rC r')) (add32 (rD r) (rD r')).

Definition digest (msg : list Z) : list Z :=
  let ws := words (pad msg) in
  let r := foldl compress init (chunks (length ws) ws) in
  le_bytes 4 (rA r) ++ le_bytes 4 (rB r) ++ le_bytes 4 (rC r) ++ le_bytes 4 (rD r).

Definition hex_digit (d : Z) : ascii :=
  nth (Z.to_nat d) (list_ascii_of_string "0123456789abcdef") "0"%char.

Definition hex_of_bytes (bs : list Z) : string :=
  string_of_list_ascii
    (flat_map (fun b => [hex_digit (Z.shiftr b 4); hex_digit (Z.land b 0xf)]) bs).

Definition bytes_of_string (s : string) : list Z :=
  map (fun c => Z.of_N (Ascii.N_of_ascii c)) (list_ascii_of_string s).

(** [hashlib.md5(s.encode()).hexdigest()]; the string is its UTF-8 bytes *)
Definition hexdigest (s : string) : string :=
  hex_of_bytes (digest (bytes_of_string s)).

End Md5.


(** ** Python values *)

(** A Python [float]: a rational, or one of the special values that the JSON
    decoder and [float()] can produce. *)
Inductive pyfloat := Fin (q : Q) | PosInf | NegInf | NaN.

#[export] Instance Q_eq_dec : EqDecision Q.
Proof. solve_decision. Defined.

#[export] Instance pyfloat_eq_dec : EqDecision pyfloat.
Proof. solve_decision. Defined.

(** [x <= 0] *)
Definition float_le0 (x : pyfloat) : bool :=
  match x with
  | Fin q => Qle_bool q 0
  | NegInf => true
  | PosInf | NaN => false
  end.

(** [x > 0] *)
Definition float_gt0 (x : pyfloat) : bool :=
  match x with
  | Fin q => negb (Qle_bool q 0)
  | PosInf => true
  | NegInf | NaN => false
  end.

(** [x < y] on instants *)
Definition Qlt_bool (x y : Q) : bool := negb (Qle_bool y x).

Inductive exn :=
| ValueError
| TypeError
| OverflowError
| KeyError (key : string)
| CollaboratorError (msg : string)   (* raised inside the provider client or requests *)
| SignatureVerificationError
| WebhookInvalidPayload.

Inductive result (A : Type) :=
| Return (a : A)
| Raise (e : exn).
Arguments Return {A} a.
Arguments Raise {A} e.

(** What [float()] is applied to: the JSON value found under a key. *)
Inductive jamount :=
| ANumber (x : pyfloat)   (* a number, or text that float() reads as x *)
| AText                   (* text that float() cannot read, such as 'abc' *)
| ANull                   (* null, a list or an object *)
| AHuge.                  (* an integer beyond the range of float, such as 10**400 *)

Definition py_float (v : jamount) : result pyfloat :=
  match v with
  | ANumber x => Return x
  | AText => Raise ValueError
  | ANull => Raise TypeError
  | AHuge => Raise OverflowError
  end.

(** The two operand types met by the rate limiter's arithmetic. *)
Inductive pyobj := PyFloat (x : Q) | PyList (l : list Q).

(** [a - b]: a number less a number is a number; a list is no operand of [-] *)
Definition py_sub (a b : pyobj) : result Q :=
  match a, b with
  | PyFloat x, PyFloat y => Return (x - y)%Q
  | PyFloat _, PyList _ => Raise TypeError
  | PyList _, _ => Raise TypeError
  end.

(** ** datetime *)
Record datetime := Datetime {
  year : Z; month : Z; day : Z;
  hour : Z; minute : Z; second : Z; microsecond : Z
}.

Definition digit (n : Z) : ascii := ascii_of_nat (48 + Z.to_nat (n mod 10)).

(** [n] in decimal, zero-filled to [width] digits *)
Fixpoint zfill (width : nat) (n : Z) : string :=
  match width with
  | O => EmptyString
  | S k => zfill k (n / 10) +:+ String (digit n) EmptyString
  end.

(** [d.isoformat(sep)] *)
Definition isoformat_sep (sep : string) (d : datetime) : string :=
  zfill 4 (year d) +:+ "-" +:+ zfill 2 (month d) +:+ "-" +:+ zfill 2 (day d) +:+ sep
  +:+ zfill 2 (hour d) +:+ ":" +:+ zfill 2 (minute d) +:+ ":" +:+ zfill 2 (second d)
  +:+ (if microsecond d =? 0 then EmptyString else "." +:+ zfill 6 (microsecond d)).

Definition isoformat : datetime -> string := isoformat_sep "T".
Definition str_datetime : datetime -> string := isoformat_sep " ".

(** ** Data model *)

Inductive PaymentStatus := PENDING | COMPLETED | FAILED | EXPIRED.

(** [status.value] *)
Definition value (s : PaymentStatus) : string :=
  match s with
  | PENDING => "pending"
  | COMPLETED => "completed"
  | FAILED => "failed"
  | EXPIRED => "expired"
  end.

(** [str(status)] *)
Definition str_PaymentStatus (s : PaymentStatus) : string :=
  match s with
  | PENDING => "PaymentStatus.PENDING"
  | COMPLETED => "PaymentStatus.COMPLETED"
  | FAILED => "PaymentStatus.FAILED"
  | EXPIRED => "PaymentStatus.EXPIRED"
  end.

(** A value held in a dictionary in memory. *)
Inductive pyval :=
| PNone
| PStr (s : string)
| PFloat (x : pyfloat)
| PEnum (s : PaymentStatus)
| PDatetime (d : datetime).

(** A value of the history file. *)
Inductive jval :=
| JNull
| JStr (s : string)
| JNum (x : pyfloat).

#[export] Instance jval_eq_dec : EqDecision jval.
Proof. solve_decision. Defined.

(** [json.load] of one value *)
Definition of_json (v : jval) : pyval :=
  match v with
  | JNull => PNone
  | JStr s => PStr s
  | JNum x => PFloat x
  end.

(** [json.dump(..., default=str)] of one value *)
Definition to_json (v : pyval) : jval :=
  match v with
  | PNone => JNull
  | PStr s => JStr s
  | PFloat x => JNum x
  | PEnum s => JStr (str_PaymentStatus s)
  | PDatetime d => JStr (str_datetime d)
  end.

(** [a == b] where [b] is a string *)
Definition py_eq_str (a : pyval) (b : string) : bool :=
  match a with
  | PStr s => String.eqb s b
  | _ => false
  end.

Definition opt_str (o : option string) : pyval :=
  match o with Some s => PStr s | None => PNone end.

Definition opt_float (o : option pyfloat) : pyval :=
  match o with Some x => PFloat x | None => PNone end.

Module PaymentInfo.
Record t := mk {
  id : string;
  amount : pyfloat;
  currency : string;
  crypto : string;
  status : PaymentStatus;
  timestamp : datetime;
  payment_url : string;
  exchange_rate : option pyfloat;
  customer_email : option string;
  description : option string
}.

(** [payment_info.__dict__] *)
Definition __dict__ (p : t) : gmap string pyval :=
  <["id" := PStr (id p)]>
  (<["amount" := PFloat (amount p)]>
  (<["currency" := PStr (currency p)]>
  (<["crypto" := PStr (crypto p)]>
  (<["status" := PEnum (status p)]>
  (<["timestamp" := PDatetime (timestamp p)]>
  (<["payment_url" := PStr (payment_url p)]>
  (<["exchange_rate" := opt_float (exchange_rate p)]>
  (<["customer_email" := opt_str (customer_email p)]>
  (<["description" := opt_str (description p)]> ∅))))))))).
End PaymentInfo.

(** The hosted charge returned by the provider. *)
Module Charge.
Record t := mk { id : string; hosted_url : string }.
End Charge.

(** The keyword arguments of [client.charge.create]. *)
Module ChargeCreate.
Record t := mk {
  name : string;
  description : string;
  pricing_type : string;
  local_price_amount : pyfloat;      (* sent as str(amount) *)
  local_price_currency : string;
  metadata : gmap string pyval
}.
End ChargeCreate.

(** The event built by [Webhook.construct_event]; [data_id] is
    [event.data['id']]. *)
Module Event.
Record t := mk { type : string; data_id : string }.
End Event.

(** ** Requests and responses *)

(** The JSON object posted to /create_payment; [None] is an absent key. *)
Record payment_json := {
  amount_field : option jamount;
  currency_field : option string;
  crypto_field : option string;
  customer_email_field : option string;
  description_field : option string
}.

Record request := {
  remote_addr : string;
  json : payment_json;
  data : string;                          (* the raw body *)
  X_CC_Webhook_Signature : option string
}.

(** The object handed to [jsonify]. *)
Inductive body :=
| Failure (error : string)               (* {'success': False, 'error': error} *)
| FailureOf (e : exn)                    (* {'success': False, 'error': str(e)} *)
| RateLimitExceeded                      (* {'error': 'Rate limit exceeded'} *)
| Success                                (* {'success': True} *)
| Payment (payment_url : string)         (* {'success': True, 'payment_url': .., *)
          (qr_code : string)             (*   'qr_code': the PNG bytes in hex,   *)
          (payment_info : PaymentInfo.t). (*  'payment_info': .. .__dict__}      *)

(** [jsonify(b)]. The JSON encoder of Flask knows dates, decimals, UUIDs and
    dataclasses; it has no encoding for a member of an [Enum], and
    [payment_info.__dict__] holds the [PaymentStatus] member under 'status':
    on that object it raises TypeError. The other objects are made of text,
    numbers and booleans. *)
Definition jsonify (b : body) : result body :=
  match b with
  | Payment _ _ _ => Raise TypeError
  | Failure _ | FailureOf _ | RateLimitExceeded | Success => Return b
  end.

Record response := Response { body_of : body; status_code : Z }.

(** ** Process state and collaborators *)

(** payment_history.json *)
Inductive file :=
| FileMissing
| FileCorrupt
| FileJson (history : list (gmap string jval)).

Inductive write_outcome :=
| WriteOk        (* the file now holds the dumped history *)
| WriteRefused   (* open() raised: the file is as it was *)
| WriteTorn.     (* the dump raised after open() truncated the file *)

Record cache := Cache { rates : gmap string pyfloat; timestamp : Q }.

Record state := State {
  exchange_rate_cache : cache;
  ip_requests : gmap string (list Q);     (* RATE_LIMIT['ip_requests'] *)
  payment_history_json : file;
  provider_log : list ChargeCreate.t      (* the calls the provider has received *)
}.

(** What the collaborators answer while one request is handled. *)
Record world := World {
  time_time : Q;
  datetime_now : datetime;
  requests_get_rates : result (gmap string pyfloat);   (* requests.get(..).json()['rates'] *)
  charge_create : ChargeCreate.t -> result Charge.t;
  construct_event : string -> option string -> result Event.t;
  write_history : write_outcome;
  qrcode_png : string -> result string    (* the QR image of a text, as PNG bytes in hex *)
}.

Definition CACHE_DURATION : Q := 3600.
Definition RATE_LIMIT_requests : nat := 100.
Definition RATE_LIMIT_window : Q := 3600.

Definition initial_cache : cache := Cache ∅ 0.
Definition initial_state : state := State initial_cache ∅ FileMissing [].

(** ** A state and exception monad for the handlers

    A raised exception keeps the state reached so far, as in Python. *)
Definition M (A : Type) : Type := state -> result A * state.

#[export] Instance M_ret : MRet M := fun A a st => (Return a, st).

#[export] Instance M_bind : MBind M := fun A B k m st =>
  match m st with
  | (Return a, st') => k a st'
  | (Raise e, st') => (Raise e, st')
  end.

Definition lift {A} (r : result A) : M A := fun st => (r, st).

Definition get : M state := fun st => (Return st, st).

Definition modify (f : state -> state) : M unit := fun st => (Return tt, f st).

(** [try: m except Exception as e: h e] *)
Definition try_except {A} (m : M A) (h : exn -> M A) : M A := fun st =>
  match m st with
  | (Return a, st') => (Return a, st')
  | (Raise e, st') => h e st'
  end.

Definition set_cache (c : cache) (st : state) : state :=
  State c (ip_requests st) (payment_history_json st) (provider_log st).

Definition set_ip_requests (d : gmap string (list Q)) (st : state) : state :=
  State (exchange_rate_cache st) d (payment_history_json st) (provider_log st).

Definition set_file (f : file) (st : state) : state :=
  State (exchange_rate_cache st) (ip_requests st) f (provider_log st).

Definition log_call (r : ChargeCreate.t) (st : state) : state :=
  State (exchange_rate_cache st) (ip_requests st) (payment_history_json st)
        (provider_log st ++ [r]).

(** [d[k]] *)
Definition getitem {V} (d : gmap string V) (k : string) : result V :=
  match d !! k with
  | Some v => Return v
  | None => Raise (KeyError k)
  end.

(** ** Rate limiter *)

(** The condition and the collection of the dictionary comprehension
    [{ip: timestamp for ip, timestamp in items if current_time - timestamp < window}];
    every [timestamp] is the list stored under its ip. *)
Fixpoint clean_up (current_time : Q) (items : list (string * list Q))
  : result (list (string * list Q)) :=
  match items with
  | [] => Return []
  | (ip, timestamp) :: rest =>
      match py_sub (PyFloat current_time) (PyList timestamp) with
      | Raise e => Raise e
      | Return age =>
          match clean_up current_time rest with
          | Raise e => Raise e
          | Return rest' =>
              Return (if Qlt_bool age RATE_LIMIT_window
                      then (ip, timestamp) :: rest' else rest')
          end
      end
  end.

Definition handler : Type := world -> request -> M response.

(** The decorator [rate_limit]; it has no [try], so what it raises leaves
    the route. *)
Definition rate_limit (f : handler) : handler := fun w req =>
  let ip := remote_addr req in
  let current_time := time_time w in
  st ← get;
  kept ← lift (clean_up current_time (map_to_list (ip_requests st)));
  modify (set_ip_requests (list_to_map kept));;
  st ← get;
  match ip_requests st !! ip with
  | Some l =>
      if (RATE_LIMIT_requests <=? length l)%nat
      then mret (Response RateLimitExceeded 429)
      else modify (set_ip_requests (<[ip := l ++ [current_time]]> (ip_requests st)));;
           f w req
  | None =>
      modify (set_ip_requests (<[ip := [current_time]]> (ip_requests st)));;
      f w req
  end.

(** ** Exchange rate cache *)
Definition get_exchange_rates (w : world) : M (gmap string pyfloat) :=
  let current_time := time_time w in
  st ← get;
  if Qlt_bool (current_time - timestamp (exchange_rate_cache st)) CACHE_DURATION
  then mret (rates (exchange_rate_cache st))
  else
    try_except
      (rates ← lift (requests_get_rates w);
       modify (set_cache (Cache rates current_time));;
       mret rates)
      (fun e => st ← get; mret (rates (exchange_rate_cache st))).

(** ** Payment history file *)

(** [json.load] and [json.dump(.., default=str)] of the whole history *)
Definition json_load (history : list (gmap string jval)) : list (gmap string pyval) :=
  map (fun payment : gmap string jval => of_json <$> payment) history.

Definition json_dump (history : list (gmap string pyval)) : list (gmap string jval) :=
  map (fun payment : gmap string pyval => to_json <$> payment) history.

Definition load_payment_history : M (list (gmap string pyval)) :=
  st ← get;
  match payment_history_json st with
  | FileJson history => mret (json_load history)
  | FileMissing => mret []
  | FileCorrupt => mret []
  end.

Definition save_payment_history (w : world) (history : list (gmap string pyval)) : M bool :=
  match write_history w with
  | WriteOk => modify (set_file (FileJson (json_dump history)));; mret true
  | WriteRefused => mret false
  | WriteTorn => modify (set_file FileCorrupt);; mret false
  end.

Definition validate_payment_amount (amount : jamount) (currency : string) : result bool :=
  match py_float amount with
  | Return amount => if float_le0 amount then Return false else Return true
  | Raise ValueError => Return false
  | Raise TypeError => Return false
  | Raise e => Raise e
  end.

(** ** Routes *)

Section Routes.

(** Modelled from the spec: the Currency Catalog, which [cryp.py] uses as
    [SUPPORTED_CURRENCIES] (the fiat codes) and [SUPPORTED_CRYPTOS] (each
    crypto code with its display ["name"]) without declaring them. *)
Variable SUPPORTED_CURRENCIES : list string.
Variable SUPPORTED_CRYPTOS : gmap string string.

(** the call [client.charge.create], recorded in the provider log *)
Definition client_charge_create (w : world) (r : ChargeCreate.t) : M Charge.t :=
  modify (log_call r);;
  lift (charge_create w r).

Definition charge_metadata (customer_email : option string) (crypto currency : string)
    (exchange_rate : pyfloat) : gmap string pyval :=
  <["customer_id" :=
      match customer_email with
      | Some e => if String.eqb e "" then PStr "anonymous" else PStr (Md5.hexdigest e)
      | None => PStr "anonymous"
      end]>
  (<["customer_email" := opt_str customer_email]>
  (<["crypto" := PStr crypto]>
  (<["currency" := PStr currency]>
  (<["exchange_rate" := PFloat exchange_rate]> ∅)))).

(** [return jsonify(b), code] *)
Definition reply (b : body) (code : Z) : M response :=
  b ← lift (jsonify b);
  mret (Response b code).

Definition create_payment : handler := fun w req =>
  try_except
    (let data := json req in
     amount ← lift (py_float (default (ANumber (Fin 0)) (amount_field data)));
     let currency := default "USD" (currency_field data) in
     let crypto := default "BTC" (crypto_field data) in
     let customer_email := customer_email_field data in
     crypto_name ← lift (getitem SUPPORTED_CRYPTOS crypto);
     let description := default ("Payment in " +:+ crypto_name) (description_field data) in
     valid ← lift (validate_payment_amount (ANumber amount) currency);
     if negb valid then reply (Failure "Invalid amount") 400
     else if negb (bool_decide (crypto ∈ dom SUPPORTED_CRYPTOS))
     then reply (Failure "Unsupported cryptocurrency") 400
     else if negb (bool_decide (currency ∈ SUPPORTED_CURRENCIES))
     then reply (Failure "Unsupported currency") 400
     else
       exchange_rates ← get_exchange_rates w;
       let exchange_rate := default (Fin 1) (exchange_rates !! currency) in
       charge ← client_charge_create w
         (ChargeCreate.mk "Payment" description "fixed_price" amount currency
            (charge_metadata customer_email crypto currency exchange_rate));
       img_byte_arr ← lift (qrcode_png w (Charge.hosted_url charge));
       let payment_info :=
         PaymentInfo.mk (Charge.id charge) amount currency crypto PENDING
           (datetime_now w) (Charge.hosted_url charge) (Some exchange_rate)
           customer_email (Some description) in
       history ← load_payment_history;
       save_payment_history w (history ++ [PaymentInfo.__dict__ payment_info]);;
       reply (Payment (Charge.hosted_url charge) img_byte_arr payment_info) 200)
    (fun e => reply (FailureOf e) 500).

(** The loop of [webhook] over the loaded history: the first record whose
    id equals the charge's is marked, then [break]. *)
Fixpoint mark_completed (charge_id : string) (now : datetime)
    (history : list (gmap string pyval)) : result (list (gmap string pyval)) :=
  match history with
  | [] => Return []
  | payment :: rest =>
      match getitem payment "id" with
      | Raise e => Raise e
      | Return pid =>
          if py_eq_str pid charge_id
          then Return (<["completed_at" := PStr (isoformat now)]>
                         (<["status" := PStr (value COMPLETED)]> payment) :: rest)
          else match mark_completed charge_id now rest with
               | Raise e => Raise e
               | Return rest' => Return (payment :: rest')
               end
      end
  end.

Definition webhook : handler := fun w req =>
  try_except
    (event ← lift (construct_event w (data req) (X_CC_Webhook_Signature req));
     (if String.eqb (Event.type event) "charge:confirmed"
      then
        history ← load_payment_history;
        history ← lift (mark_completed (Event.data_id event) (datetime_now w) history);
        save_payment_history w history;;
        mret tt
      else mret tt);;
     mret (Response Success 200))
    (fun e => mret (Response (FailureOf e) 500)).

(** The route /create_payment as registered: [rate_limit(create_payment)]. *)
Definition create_payment_route : handler := rate_limit create_payment.

End Routes.

(** ** Observations used in the statements *)

(** The records a reader of the history file gets. *)
Definition stored_records (st : state) : list (gmap string jval) :=
  match payment_history_json st with
  | FileJson history => history
  | FileMissing | FileCorrupt => []
  end.

(** A stored record as the loop of [webhook] leaves it when it matches. *)
Definition confirmed_record (now : datetime) (payment : gmap string jval) : gmap string jval :=
  <["completed_at" := JStr (isoformat now)]>
    (<["status" := JStr (value COMPLETED)]> payment).

(** A stored record that has an id, and another one than [charge_id]. *)
Definition other_id (charge_id : string) (payment : gmap string jval) : Prop :=
  exists v, payment !! "id" = Some v /\ v <> JStr charge_id.

(** The file after [save_payment_history] was asked to write [history]. *)
Definition written (w : world) (history : list (gmap string pyval)) (st : state) : state :=
  match write_history w with
  | WriteOk => set_file (FileJson (json_dump history)) st
  | WriteRefused => st
  | WriteTorn => set_file FileCorrupt st
  end.

(** The posted object with the keys currency and crypto spelled out as
    'USD' and 'BTC' where the sender left them out. *)
Definition with_defaults (req : request) : request :=
  let j := json req in
  {| remote_addr := remote_addr req;
     json := {| amount_field := amount_field j;
                currency_field := Some (default "USD" (currency_field j));
                crypto_field := Some (default "BTC" (crypto_field j));
                customer_email_field := customer_email_field j;
                description_field := description_field j |};
     data := data req;
     X_CC_Webhook_Signature := X_CC_Webhook_Signature req |}.

(** What [customer_id] holds in the metadata of a charge. *)
Definition customer_id_of (customer_email : option string) : string :=
  match customer_email with
  | Some e => if String.eqb e "" then "anonymous" else Md5.hexdigest e
  | None => "anonymous"
  end.

(** ** Sample catalog, collaborators and requests *)
Module Demo.

Definition currencies : list string := ["USD"; "EUR"; "GBP"].

Definition cryptos : gmap string string :=
  <["BTC" := "Bitcoin"]> (<["ETH" := "Ethereum"]> ∅).

Definition ch_1 : Charge.t := Charge.mk "ch_1" "https://pay.example/ch_1".

Definition stub_provider : ChargeCreate.t -> result Charge.t :=
  fun _ => Return ch_1.

Definition failing_provider : ChargeCreate.t -> result Charge.t :=
  fun _ => Raise (CollaboratorError "provider unavailable").

Definition confirmed (charge_id : string) : Event.t :=
  Event.mk "charge:confirmed" charge_id.

Definition good_signature (charge_id : string) : string -> option string -> result Event.t :=
  fun _ _ => Return (confirmed charge_id).

Definition bad_signature : string -> option string -> result Event.t :=
  fun _ _ => Raise SignatureVerificationError.

(** a QR encoder that renders every text *)
Definition qr_stub : string -> result string :=
  fun text => Return ("89504e47:" +:+ text).

Definition noon : datetime := Datetime 2024 1 15 12 0 0 0.
Definition five_past : datetime := Datetime 2024 1 15 12 5 0 250000.

Definition rates_down : result (gmap string pyfloat) :=
  Raise (CollaboratorError "rates unavailable").

(** creation of a charge at noon, the rate provider being down *)
Definition w_create : world :=
  World 1705320000 noon rates_down stub_provider bad_signature WriteOk qr_stub.

Definition w_create_provider_down : world :=
  World 1705320000 noon rates_down failing_provider bad_signature WriteOk qr_stub.

(** a confirmation of [ch_1] delivered at noon, and again five minutes later *)
Definition w_confirm : world :=
  World 1705320000 noon rates_down stub_provider (good_signature "ch_1") WriteOk qr_stub.

Definition w_confirm_again : world :=
  World 1705320300 five_past rates_down stub_provider (good_signature "ch_1") WriteOk qr_stub.

Definition w_confirm_unknown : world :=
  World 1705320000 noon rates_down stub_provider (good_signature "ch_9") WriteOk qr_stub.

Definition w_forged : world :=
  World 1705320000 noon rates_down stub_provider bad_signature WriteOk qr_stub.

Definition body_of_amount (a : option jamount) (email : option string) : payment_json :=
  {| amount_field := a; currency_field := Some "USD"; crypto_field := Some "BTC";
     customer_email_field := email; description_field := None |}.

Definition post (j : payment_json) : request :=
  {| remote_addr := "203.0.113.7"; json := j; data := "";
     X_CC_Webhook_Signature := None |}.

(** {"amount": 25.0, "currency": "USD", "crypto": "BTC"} *)
Definition req_25 : request := post (body_of_amount (Some (ANumber (Fin 25))) None).

(** the same with "customer_email": "alice@example.com" *)
Definition req_alice : request :=
  post (body_of_amount (Some (ANumber (Fin 25))) (Some "alice@example.com")).

(** {"amount": "abc", "currency": "USD", "crypto": "BTC"} *)
Definition req_abc : request := post (body_of_amount (Some AText) None).

(** {"amount": 25.0} *)
Definition req_bare : request :=
  post {| amount_field := Some (ANumber (Fin 25)); currency_field := None;
          crypto_field := None; customer_email_field := None;
          description_field := None |}.

Definition notification : request :=
  {| remote_addr := "198.51.100.1"; json := body_of_amount None None;
     data := "{...}"; X_CC_Webhook_Signature := Some "5f2c" |}.

(** the ledger after [req_25] has been served at noon *)
Definition ledger_ch_1 : list (gmap string jval) :=
  [ <["id" := JStr "ch_1"]>
    (<["amount" := JNum (Fin 25)]>
    (<["currency" := JStr "USD"]>
    (<["crypto" := JStr "BTC"]>
    (<["status" := JStr "PaymentStatus.PENDING"]>
    (<["timestamp" := JStr "2024-01-15 12:00:00"]>
    (<["payment_url" := JStr "https://pay.example/ch_1"]>
    (<["exchange_rate" := JNum (Fin 1)]>
    (<["customer_email" := JNull]>
    (<["description" := JStr "Payment in Bitcoin"]> ∅))))))))) ].

Definition st_ch_1 : state := State initial_cache ∅ (FileJson ledger_ch_1) [].

(** the limiter after it has let one request through *)
Definition st_one_request : state :=
  State initial_cache (<["203.0.113.7" := [1705320000%Q]]> ∅) FileMissing [].

End Demo.


(** ** The history route and its bearer token *)

(** The object handed to [jsonify] by [token_required] and by
    [get_payment_history]. *)
Inductive history_body :=
| Message (message : string)                       (* {'message': message} *)
| History (history : list (gmap string pyval))     (* {'success': True, 'history': history} *)
| HistoryFailure (e : exn).                        (* {'success': False, 'error': str(e)} *)

Record history_response :=
  HistoryResponse { history_body_of : history_body; history_status : Z }.

Section Auth.

(** [jwt.decode(token, app.secret_key, algorithms=['HS256'])]: the payload of
    a token that verifies, or what the library raises. *)
Variable jwt_decode : string -> result (gmap string jval).

(** The body of the [try] of [token_required]. *)
Definition current_user_of (token : string) : result jval :=
  match jwt_decode token with
  | Raise e => Raise e
  | Return payload => getitem payload "user"
  end.

(** The decorator [token_required], given the Authorization header of the
    request; the bare [except] covers the decoding only, not the call of
    [f]. *)
Definition token_required (f : jval -> M history_response)
    (Authorization : option string) : M history_response :=
  match Authorization with
  | None => mret (HistoryResponse (Message "Token is missing") 401)
  | Some token =>
      if String.eqb token ""
      then mret (HistoryResponse (Message "Token is missing") 401)
      else match current_user_of token with
           | Raise _ => mret (HistoryResponse (Message "Token is invalid") 401)
           | Return current_user => f current_user
           end
  end.

Definition get_payment_history (current_user : jval) : M history_response :=
  try_except
    (history ← load_payment_history;
     mret (HistoryResponse (History history) 200))
    (fun e => mret (HistoryResponse (HistoryFailure e) 500)).

End Auth.

(** ** The route /get_exchange_rate *)

Inductive rates_body :=
| Rates (rates : gmap string pyfloat) (timestamp : Q)   (* {'success': True, 'rates': .., 'timestamp': ..} *)
| RatesFailure (e : exn).                               (* {'success': False, 'error': str(e)} *)

Record rates_response := RatesResponse { rates_body_of : rates_body; rates_status : Z }.

Definition get_exchange_rate (w : world) : M rates_response :=
  try_except
    (rates ← get_exchange_rates w;
     st ← get;
     mret (RatesResponse (Rates rates (timestamp (exchange_rate_cache st))) 200))
    (fun e => mret (RatesResponse (RatesFailure e) 500)).

(** ** Requests served one after the other *)

(** Routes under [rate_limit], called in this order on the state the
    previous call left. *)
Fixpoint serve (calls : list (handler * world * request)) (st : state)
  : list (result response) * state :=
  match calls with
  | [] => ([], st)
  | (f, w, req) :: rest =>
      let '(r, st1) := rate_limit f w req st in
      let '(rs, st2) := serve rest st1 in
      (r :: rs, st2)
  end.

(** The shape of the records that the handlers write: an id, and either the
    status text of a pending payment and no completion instant, or the
    status completed and a completion instant. *)
Definition well_formed_record (payment : gmap string jval) : Prop :=
  (exists i, payment !! "id" = Some (JStr i))
  /\ ((payment !! "status" = Some (JStr "PaymentStatus.PENDING")
       /\ payment !! "completed_at" = None)
      \/ (payment !! "status" = Some (JStr "completed")
          /\ exists now, payment !! "completed_at" = Some (JStr (isoformat now)))).

(** The states that the process, started without a history file, reaches
    through the two routes that write: /create_payment as registered, and
    /webhook. *)
Inductive reachable (SUPPORTED_CURRENCIES : list string)
    (SUPPORTED_CRYPTOS : gmap string string) : state -> Prop :=
| reachable_start : reachable SUPPORTED_CURRENCIES SUPPORTED_CRYPTOS initial_state
| reachable_create_payment (w : world) (req : request) (st : state) :
    reachable SUPPORTED_CURRENCIES SUPPORTED_CRYPTOS st ->
    reachable SUPPORTED_CURRENCIES SUPPORTED_CRYPTOS
      (create_payment_route SUPPORTED_CURRENCIES SUPPORTED_CRYPTOS w req st).2
| reachable_webhook (w : world) (req : request) (st : state) :
    reachable SUPPORTED_CURRENCIES SUPPORTED_CRYPTOS st ->
    reachable SUPPORTED_CURRENCIES SUPPORTED_CRYPTOS (webhook w req st).2.

(** ** Further sample inputs *)
Module Scenario.

Definition usd_eur : gmap string pyfloat :=
  <["USD" := Fin 1]> (<["EUR" := Fin (92 # 100)]> ∅).

Definition usd_eur_new : gmap string pyfloat :=
  <["USD" := Fin 1]> (<["EUR" := Fin (93 # 100)]> ∅).

(** a snapshot taken at 1705320000 *)
Definition st_snapshot : state :=
  State (Cache usd_eur 1705320000) ∅ FileMissing [].

(** half an hour, and exactly one hour, after the snapshot *)
Definition w_half_hour : world :=
  World 1705321800 Demo.five_past (Return usd_eur_new) Demo.stub_provider
        Demo.bad_signature WriteOk Demo.qr_stub.

Definition w_one_hour : world :=
  World 1705323600 Demo.five_past (Return usd_eur_new) Demo.stub_provider
        Demo.bad_signature WriteOk Demo.qr_stub.

Definition w_one_hour_down : world :=
  World 1705323600 Demo.five_past Demo.rates_down Demo.stub_provider
        Demo.bad_signature WriteOk Demo.qr_stub.

(** a confirmation whose write is refused *)
Definition w_confirm_refused : world :=
  World 1705320000 Demo.noon Demo.rates_down Demo.stub_provider
        (Demo.good_signature "ch_1") WriteRefused Demo.qr_stub.

(** a creation whose write of the history is refused *)
Definition w_create_refused : world :=
  World 1705320000 Demo.noon Demo.rates_down Demo.stub_provider
        Demo.bad_signature WriteRefused Demo.qr_stub.

(** a confirmation of the unknown [ch_9] whose write breaks off *)
Definition w_confirm_unknown_torn : world :=
  World 1705320000 Demo.noon Demo.rates_down Demo.stub_provider
        (Demo.good_signature "ch_9") WriteTorn Demo.qr_stub.

(** a verified event of another type *)
Definition w_pending_event : world :=
  World 1705320000 Demo.noon Demo.rates_down Demo.stub_provider
        (fun _ _ => Return (Event.mk "charge:pending" "ch_1")) WriteOk Demo.qr_stub.

(** {"amount": 25.0, "currency": "XXX", "crypto": "BTC"} *)
Definition req_unknown_currency : request :=
  Demo.post {| amount_field := Some (ANumber (Fin 25)); currency_field := Some "XXX";
               crypto_field := Some "BTC"; customer_email_field := None;
               description_field := None |}.

(** {"currency": "USD", "crypto": "BTC"} *)
Definition req_no_amount : request := Demo.post (Demo.body_of_amount None None).

(** a record without the key id, in front of the record of [ch_1] *)
Definition ledger_broken : list (gmap string jval) :=
  (<["amount" := JNum (Fin 5)]> ∅) :: Demo.ledger_ch_1.

Definition st_broken : state := State initial_cache ∅ (FileJson ledger_broken) [].


(** a token decoder that accepts the single token "good" *)
Definition jwt_stub (token : string) : result (gmap string jval) :=
  if String.eqb token "good"
  then Return (<["user" := JStr "alice"]> ∅)
  else Raise (CollaboratorError "Signature verification failed").

End Scenario.

(** * Properties *)

(** ** MD5 test vectors (RFC 1321, appendix A.5) *)

Example md5_empty : Md5.hexdigest "" = "d41d8cd98f00b204e9800998ecf8427e".
Proof. vm_compute. reflexivity. Qed.

Example md5_abc : Md5.hexdigest "abc" = "900150983cd24fb0d6963f7d28e17f72".
Proof. vm_compute. reflexivity. Qed.

Example md5_two_blocks :
  Md5.hexdigest "12345678901234567890123456789012345678901234567890123456789012345678901234567890"
  = "57edf4a22be3c955ac49da2e2107b67a".
Proof. vm_compute. reflexivity. Qed.

Example isoformat_noon : isoformat Demo.noon = "2024-01-15T12:00:00".
Proof. reflexivity. Qed.

Example isoformat_five_past : isoformat Demo.five_past = "2024-01-15T12:05:00.250000".
Proof. reflexivity. Qed.

(** ** The monad *)

Lemma run_lift_bind {A B} (r : result A) (k : A -> M B) (st : state) :
  (lift r ≫= k) st = match r with Return a => k a st | Raise e => (Raise e, st) end.
Proof. unfold mbind, M_bind, lift. destruct r; reflexivity. Qed.

Lemma run_get_bind {B} (k : state -> M B) (st : state) :
  (get ≫= k) st = k st st.
Proof. reflexivity. Qed.

Lemma run_modify_bind {B} (f : state -> state) (k : unit -> M B) (st : state) :
  (modify f ≫= k) st = k tt (f st).
Proof. reflexivity. Qed.

(** ** JSON round trip of the history *)

Lemma to_json_of_json (v : jval) : to_json (of_json v) = v.
Proof. destruct v; reflexivity. Qed.

Lemma json_dump_load (history : list (gmap string jval)) :
  json_dump (json_load history) = history.
Proof.
  unfold json_dump, json_load. induction history as [|p h IH]; simpl; [reflexivity|].
  f_equal; [|exact IH].
  rewrite <- map_fmap_compose. rewrite <- (map_fmap_id p) at 2.
  apply map_fmap_ext. intros k v _. apply to_json_of_json.
Qed.

Lemma json_dump_app (h1 h2 : list (gmap string pyval)) :
  json_dump (h1 ++ h2) = json_dump h1 ++ json_dump h2.
Proof. apply map_app. Qed.

(** ** Exchange rate cache *)

(** [get_exchange_rates] never raises and touches nothing but the cache. *)
Lemma get_exchange_rates_total (w : world) (st : state) :
  exists rs c, get_exchange_rates w st = (Return rs, set_cache c st).
Proof.
  unfold get_exchange_rates. rewrite run_get_bind.
  destruct (Qlt_bool _ _).
  - exists (rates (exchange_rate_cache st)), (exchange_rate_cache st).
    destruct st; reflexivity.
  - unfold try_except. rewrite run_lift_bind.
    destruct (requests_get_rates w) as [rs|e].
    + exists rs, (Cache rs (time_time w)). reflexivity.
    + exists (rates (exchange_rate_cache st)), (exchange_rate_cache st).
      destruct st; reflexivity.
Qed.

(** C8. When the refresh from the rate provider fails, [get_exchange_rates]
    raises nothing: it returns the rates of the snapshot it holds and leaves
    the cache as it was; with no snapshot yet, what it returns is the empty
    mapping. *)
Theorem get_exchange_rates_refresh_failure (w : world) (st : state) (e : exn) :
  requests_get_rates w = Raise e ->
  get_exchange_rates w st = (Return (rates (exchange_rate_cache st)), st)
  /\ (exchange_rate_cache st = initial_cache ->
      (get_exchange_rates w st).1 = Return ∅).
Proof.
  intros Hfail.
  assert (Hrun : get_exchange_rates w st = (Return (rates (exchange_rate_cache st)), st)).
  { unfold get_exchange_rates. rewrite run_get_bind.
    destruct (Qlt_bool _ _); [reflexivity|].
    unfold try_except. rewrite run_lift_bind, Hfail. reflexivity. }
  split; [exact Hrun|].
  intros Hinit. rewrite Hrun. simpl. rewrite Hinit. reflexivity.
Qed.

Lemma get_exchange_rates_refresh_failure_witness :
  requests_get_rates Demo.w_create = Raise (CollaboratorError "rates unavailable")
  /\ get_exchange_rates Demo.w_create initial_state = (Return ∅, initial_state).
Proof.
  split; [reflexivity|].
  exact (proj1 (get_exchange_rates_refresh_failure Demo.w_create initial_state
                  (CollaboratorError "rates unavailable") eq_refl)).
Defined.

(** ** Reconciliation *)

Lemma py_eq_str_of_json (v : jval) (s : string) :
  py_eq_str (of_json v) s = bool_decide (v = JStr s).
Proof.
  destruct v as [|s'|x]; cbn [of_json py_eq_str].
  - rewrite bool_decide_eq_false_2 by discriminate. reflexivity.
  - destruct (String.eqb_spec s' s) as [->|Hne].
    + rewrite bool_decide_eq_true_2 by reflexivity. reflexivity.
    + rewrite bool_decide_eq_false_2 by congruence. reflexivity.
  - rewrite bool_decide_eq_false_2 by discriminate. reflexivity.
Qed.

Lemma json_load_confirmed_record (now : datetime) (p : gmap string jval) :
  of_json <$> confirmed_record now p =
  <["completed_at" := PStr (isoformat now)]>
    (<["status" := PStr (value COMPLETED)]> (of_json <$> p)).
Proof. unfold confirmed_record. rewrite !fmap_insert. reflexivity. Qed.

(** The loop changes nothing when no record carries the id. *)
Lemma mark_completed_no_match (charge_id : string) (now : datetime)
    (history : list (gmap string jval)) :
  Forall (other_id charge_id) history ->
  mark_completed charge_id now (json_load history) = Return (json_load history).
Proof.
  induction 1 as [|p h [v [Hid Hne]] _ IH]; simpl; [reflexivity|].
  unfold getitem. rewrite lookup_fmap, Hid. simpl.
  rewrite py_eq_str_of_json, bool_decide_eq_false_2 by exact Hne.
  rewrite IH. reflexivity.
Qed.

(** The loop marks the first record that carries the id, and only it. *)
Lemma mark_completed_match (charge_id : string) (now : datetime)
    (before after : list (gmap string jval)) (p : gmap string jval) :
  Forall (other_id charge_id) before ->
  p !! "id" = Some (JStr charge_id) ->
  mark_completed charge_id now (json_load (before ++ p :: after)) =
  Return (json_load (before ++ confirmed_record now p :: after)).
Proof.
  intros Hbefore Hid.
  induction Hbefore as [|q h [v [Hq Hne]] _ IH]; simpl.
  - unfold getitem. rewrite lookup_fmap, Hid. simpl.
    rewrite String.eqb_refl, json_load_confirmed_record. reflexivity.
  - unfold getitem. rewrite lookup_fmap, Hq. simpl.
    rewrite py_eq_str_of_json, bool_decide_eq_false_2 by exact Hne.
    rewrite IH. reflexivity.
Qed.

(** Whatever the loop returns is the loaded history with at most one record
    marked. *)
Lemma mark_completed_shape (charge_id : string) (now : datetime)
    (history : list (gmap string jval)) (history' : list (gmap string pyval)) :
  mark_completed charge_id now (json_load history) = Return history' ->
  exists marked,
    history' = json_load marked /\
    Forall2 (fun p p' => p' = p \/ p' = confirmed_record now p) history marked.
Proof.
  revert history'. induction history as [|p h IH]; intros history'; simpl.
  - intros [= <-]. exists []. split; [reflexivity|constructor].
  - unfold getitem. destruct ((of_json <$> p) !! "id") as [pid|]; [|discriminate].
    destruct (py_eq_str pid charge_id).
    + intros [= <-]. exists (confirmed_record now p :: h). split.
      * simpl. rewrite json_load_confirmed_record. reflexivity.
      * constructor; [right; reflexivity|].
        apply Forall2_same_length_lookup_2; [reflexivity|].
        intros i x y Hx Hy. left. congruence.
    + fold (json_load h).
      destruct (mark_completed charge_id now (json_load h)) as [rest|e]; [|discriminate].
      intros [= <-]. destruct (IH rest eq_refl) as (marked & -> & Hall).
      exists (p :: marked). split; [reflexivity|].
      constructor; [left; reflexivity|exact Hall].
Qed.

(** What [webhook] does with a verified 'charge:confirmed' event. *)
Lemma webhook_confirmed (w : world) (req : request) (st : state) (ev : Event.t) :
  construct_event w (data req) (X_CC_Webhook_Signature req) = Return ev ->
  Event.type ev = "charge:confirmed" ->
  webhook w req st =
  match mark_completed (Event.data_id ev) (datetime_now w) (json_load (stored_records st)) with
  | Return history => (Return (Response Success 200), written w history st)
  | Raise e => (Return (Response (FailureOf e) 500), st)
  end.
Proof.
  intros Hev Hty. unfold webhook, try_except.
  rewrite run_lift_bind, Hev, Hty. simpl String.eqb. cbv iota.
  unfold load_payment_history, stored_records, written, save_payment_history.
  unfold mbind, M_bind, get, lift, mret, M_ret, modify.
  destruct (payment_history_json st) as [| |h]; simpl;
    try (destruct (write_history w); reflexivity).
  destruct (mark_completed _ _ _); [|reflexivity].
  destruct (write_history w); reflexivity.
Qed.

Lemma stored_records_written (w : world) (history : list (gmap string jval)) (st : state) :
  write_history w <> WriteTorn ->
  stored_records st = history ->
  stored_records (written w (json_load history) st) = history.
Proof.
  intros Htorn Hst. unfold written.
  destruct (write_history w); [|exact Hst|congruence].
  unfold stored_records. simpl. apply json_dump_load.
Qed.

(** C9 (amended). A verified 'charge:confirmed' notification whose charge
    id is the id of no stored record is answered with success, and, unless
    the rewrite of the history file breaks off, the records of the file read
    as before: the file is rewritten with what was read from it, also when
    nothing matched. Nothing else of the state changes. *)
Theorem webhook_unknown_charge (w : world) (req : request) (st : state) (ev : Event.t) :
  construct_event w (data req) (X_CC_Webhook_Signature req) = Return ev ->
  Event.type ev = "charge:confirmed" ->
  Forall (other_id (Event.data_id ev)) (stored_records st) ->
  (webhook w req st).1 = Return (Response Success 200)
  /\ (write_history w <> WriteTorn ->
      stored_records (webhook w req st).2 = stored_records st)
  /\ exchange_rate_cache (webhook w req st).2 = exchange_rate_cache st
  /\ ip_requests (webhook w req st).2 = ip_requests st
  /\ provider_log (webhook w req st).2 = provider_log st.
Proof.
  intros Hev Hty Hids.
  rewrite (webhook_confirmed w req st ev Hev Hty).
  rewrite (mark_completed_no_match _ _ _ Hids). simpl.
  split; [reflexivity|]. split.
  - intros Htorn. apply stored_records_written; [exact Htorn|reflexivity].
  - unfold written. destruct (write_history w); simpl; repeat split; reflexivity.
Qed.

Lemma ledger_ch_1_other_id : Forall (other_id "ch_9") (stored_records Demo.st_ch_1).
Proof.
  repeat constructor. exists (JStr "ch_1"). split; [reflexivity|discriminate].
Qed.

Lemma webhook_unknown_charge_witness :
  (webhook Demo.w_confirm_unknown Demo.notification Demo.st_ch_1).1
    = Return (Response Success 200)
  /\ stored_records (webhook Demo.w_confirm_unknown Demo.notification Demo.st_ch_1).2
    = Demo.ledger_ch_1.
Proof.
  pose proof (webhook_unknown_charge Demo.w_confirm_unknown Demo.notification
                Demo.st_ch_1 (Demo.confirmed "ch_9") eq_refl eq_refl
                ledger_ch_1_other_id) as (Hreply & Hledger & _).
  split; [exact Hreply|].
  apply Hledger. discriminate.
Defined.

(** C9 as stated fails: the handler rewrites the whole file although no
    record matched, and when that write breaks off after the file was
    truncated, the notification is still answered with success while the
    record that was stored is lost. *)
Lemma webhook_unknown_charge_torn_write :
  let out := webhook Scenario.w_confirm_unknown_torn Demo.notification Demo.st_ch_1 in
  out.1 = Return (Response Success 200)
  /\ stored_records Demo.st_ch_1 = Demo.ledger_ch_1
  /\ stored_records out.2 = []
  /\ stored_records out.2 <> stored_records Demo.st_ch_1.
Proof.
  cbv zeta. split; [vm_compute; reflexivity|]. split; [reflexivity|].
  split; [vm_compute; reflexivity|].
  intros Heq. apply (f_equal length) in Heq. vm_compute in Heq. discriminate Heq.
Qed.

Lemma confirmed_record_id (now : datetime) (p : gmap string jval) :
  confirmed_record now p !! "id" = p !! "id".
Proof.
  unfold confirmed_record. rewrite !lookup_insert_ne by discriminate. reflexivity.
Qed.

Lemma confirmed_record_twice (t1 t2 : datetime) (p : gmap string jval) :
  confirmed_record t2 (confirmed_record t1 p) = confirmed_record t2 p.
Proof.
  unfold confirmed_record. apply map_eq. intros k.
  rewrite !lookup_insert. repeat case_decide; reflexivity.
Qed.

Lemma confirmed_record_other_keys (now : datetime) (p : gmap string jval) (k : string) :
  k <> "completed_at" -> k <> "status" ->
  confirmed_record now p !! k = p !! k.
Proof.
  intros H1 H2. unfold confirmed_record.
  rewrite !lookup_insert_ne by congruence. reflexivity.
Qed.

(** A verified confirmation of a stored charge, the write succeeding. *)
Lemma webhook_marks (w : world) (req : request) (st : state) (ev : Event.t)
    (before after : list (gmap string jval)) (p : gmap string jval) :
  construct_event w (data req) (X_CC_Webhook_Signature req) = Return ev ->
  Event.type ev = "charge:confirmed" ->
  write_history w = WriteOk ->
  stored_records st = before ++ p :: after ->
  Forall (other_id (Event.data_id ev)) before ->
  p !! "id" = Some (JStr (Event.data_id ev)) ->
  webhook w req st =
  (Return (Response Success 200),
   set_file (FileJson (before ++ confirmed_record (datetime_now w) p :: after)) st).
Proof.
  intros Hev Hty Hw Hst Hbefore Hid.
  rewrite (webhook_confirmed w req st ev Hev Hty), Hst.
  rewrite (mark_completed_match _ _ _ _ _ Hbefore Hid).
  unfold written. rewrite Hw, json_dump_load. reflexivity.
Qed.

(** C2 (amended). Two deliveries of the same verified 'charge:confirmed'
    event for a stored charge, each of which rewrites the history file with
    success, both succeed and both leave the record with status completed
    and every other record as it was; [completed_at] is written by each
    delivery, so after the duplicate it holds the instant of the second
    delivery, and the state is the one a single delivery at that instant
    yields. *)
Theorem webhook_duplicate_confirmation (w1 w2 : world) (req : request) (st : state)
    (ev : Event.t) (before after : list (gmap string jval)) (p : gmap string jval) :
  construct_event w1 (data req) (X_CC_Webhook_Signature req) = Return ev ->
  construct_event w2 (data req) (X_CC_Webhook_Signature req) = Return ev ->
  Event.type ev = "charge:confirmed" ->
  write_history w1 = WriteOk ->
  write_history w2 = WriteOk ->
  payment_history_json st = FileJson (before ++ p :: after) ->
  Forall (other_id (Event.data_id ev)) before ->
  p !! "id" = Some (JStr (Event.data_id ev)) ->
  let st1 := (webhook w1 req st).2 in
  let st2 := (webhook w2 req st1).2 in
  (webhook w1 req st).1 = Return (Response Success 200)
  /\ (webhook w2 req st1).1 = Return (Response Success 200)
  /\ stored_records st1 = before ++ confirmed_record (datetime_now w1) p :: after
  /\ stored_records st2 = before ++ confirmed_record (datetime_now w2) p :: after
  /\ confirmed_record (datetime_now w2) p !! "status" = Some (JStr "completed")
  /\ confirmed_record (datetime_now w2) p !! "completed_at"
       = Some (JStr (isoformat (datetime_now w2)))
  /\ (forall k, k <> "completed_at" ->
        confirmed_record (datetime_now w2) p !! k = confirmed_record (datetime_now w1) p !! k)
  /\ st2 = (webhook w2 req st).2.
Proof.
  intros Hev1 Hev2 Hty Hw1 Hw2 Hfile Hbefore Hid st1 st2.
  assert (Hst : stored_records st = before ++ p :: after).
  { unfold stored_records. rewrite Hfile. reflexivity. }
  pose proof (webhook_marks w1 req st ev before after p Hev1 Hty Hw1 Hst Hbefore Hid) as H1.
  assert (Hst1 : stored_records st1 = before ++ confirmed_record (datetime_now w1) p :: after).
  { subst st1. rewrite H1. reflexivity. }
  assert (Hid1 : confirmed_record (datetime_now w1) p !! "id" = Some (JStr (Event.data_id ev))).
  { rewrite confirmed_record_id. exact Hid. }
  pose proof (webhook_marks w2 req st1 ev before after _ Hev2 Hty Hw2 Hst1 Hbefore Hid1) as H2.
  pose proof (webhook_marks w2 req st ev before after p Hev2 Hty Hw2 Hst Hbefore Hid) as H3.
  rewrite confirmed_record_twice in H2.
  split; [rewrite H1; reflexivity|].
  split; [rewrite H2; reflexivity|].
  split; [exact Hst1|].
  split; [subst st2; rewrite H2; reflexivity|].
  split; [unfold confirmed_record; rewrite lookup_insert_ne by discriminate;
          apply lookup_insert_eq|].
  split; [apply lookup_insert_eq|].
  split.
  - intros k Hk. unfold confirmed_record.
    rewrite !(lookup_insert_ne _ "completed_at") by congruence. reflexivity.
  - subst st2. rewrite H2, H3. subst st1. rewrite H1. reflexivity.
Qed.

Lemma webhook_duplicate_confirmation_witness :
  stored_records
    (webhook Demo.w_confirm_again Demo.notification
       (webhook Demo.w_confirm Demo.notification Demo.st_ch_1).2).2
  = [] ++ confirmed_record Demo.five_past (hd ∅ Demo.ledger_ch_1) :: [].
Proof.
  refine (proj1 (proj2 (proj2 (proj2
    (webhook_duplicate_confirmation Demo.w_confirm Demo.w_confirm_again
       Demo.notification Demo.st_ch_1 (Demo.confirmed "ch_1") [] []
       (hd ∅ Demo.ledger_ch_1) eq_refl eq_refl eq_refl eq_refl eq_refl eq_refl _ _))))).
  - constructor.
  - reflexivity.
Defined.

(** C2 as stated fails: the duplicate delivery, arriving five minutes after
    the first, changes the record, whose [completed_at] moves from the first
    instant to the second. *)
Lemma webhook_duplicate_changes_record :
  let st1 := (webhook Demo.w_confirm Demo.notification Demo.st_ch_1).2 in
  let st2 := (webhook Demo.w_confirm_again Demo.notification st1).2 in
  (hd ∅ (stored_records st1)) !! "completed_at" = Some (JStr "2024-01-15T12:00:00")
  /\ (hd ∅ (stored_records st2)) !! "completed_at" = Some (JStr "2024-01-15T12:05:00.250000")
  /\ st2 <> st1.
Proof.
  split; [vm_compute; reflexivity|].
  split; [vm_compute; reflexivity|].
  intros Heq.
  apply (f_equal (fun st => (hd ∅ (stored_records st)) !! "completed_at")) in Heq.
  vm_compute in Heq. discriminate Heq.
Qed.

(** C4 (amended). When [Webhook.construct_event] rejects the notification,
    the signature not verifying being one such case, [webhook] answers
    {'success': False, 'error': ..} with HTTP status 500 and leaves the
    state untouched; the handler consults no other credential, and none of
    its answers carries the status 401. *)
Theorem webhook_invalid_signature (w : world) (req : request) (st : state) (e : exn) :
  construct_event w (data req) (X_CC_Webhook_Signature req) = Raise e ->
  webhook w req st = (Return (Response (FailureOf e) 500), st)
  /\ (forall w' req' st' r, (webhook w' req' st').1 = Return r ->
        status_code r = 200 \/ status_code r = 500).
Proof.
  intros Hev. split.
  - unfold webhook, try_except. rewrite run_lift_bind, Hev. reflexivity.
  - intros w' req' st' r. unfold webhook, try_except.
    rewrite run_lift_bind.
    destruct (construct_event w' _ _) as [ev|e']; [|intros [= <-]; right; reflexivity].
    unfold mbind at 1. unfold M_bind at 1.
    match goal with
    | |- context [match ?m st' with _ => _ end] => destruct (m st') as [[a|e'] s]
    end; simpl; intros [= <-]; [left|right]; reflexivity.
Qed.

Lemma webhook_invalid_signature_witness :
  webhook Demo.w_forged Demo.notification Demo.st_ch_1
  = (Return (Response (FailureOf SignatureVerificationError) 500), Demo.st_ch_1).
Proof.
  exact (proj1 (webhook_invalid_signature Demo.w_forged Demo.notification
                  Demo.st_ch_1 SignatureVerificationError eq_refl)).
Defined.

(** C4 as stated fails: a notification whose signature does not verify is
    answered with status 500, not 401. *)
Lemma webhook_invalid_signature_not_401 :
  exists r, (webhook Demo.w_forged Demo.notification Demo.st_ch_1).1 = Return r
            /\ status_code r = 500 /\ status_code r <> 401.
Proof.
  eexists. split; [reflexivity|]. split; [reflexivity|discriminate].
Qed.

(** ** Rate limiter *)

Lemma clean_up_raises (current_time : Q) (items : list (string * list Q)) :
  items <> [] -> clean_up current_time items = Raise TypeError.
Proof. destruct items as [|[ip timestamp] rest]; [congruence|reflexivity]. Qed.

(** The whole behaviour of the decorator: with an empty table the request is
    recorded and handed to the route; with any entry in the table the
    clean-up subtracts a list from a number and raises. *)
Lemma rate_limit_run (f : handler) (w : world) (req : request) (st : state) :
  rate_limit f w req st =
  if decide (ip_requests st = ∅)
  then f w req (set_ip_requests (<[remote_addr req := [time_time w]]> ∅) st)
  else (Raise TypeError, st).
Proof.
  unfold rate_limit. rewrite run_get_bind, run_lift_bind.
  destruct (decide (ip_requests st = ∅)) as [Hempty|Hsome].
  - rewrite Hempty, map_to_list_empty. simpl clean_up. cbv iota.
    rewrite run_modify_bind, run_get_bind.
    change (ip_requests (set_ip_requests (list_to_map []) st))
      with (∅ : gmap string (list Q)).
    rewrite lookup_empty, run_modify_bind.
    destruct st; reflexivity.
  - rewrite clean_up_raises; [reflexivity|].
    intros Hnil. apply map_to_list_empty_iff in Hnil. contradiction.
Qed.

(** The decorator never answers 429 itself. *)
Lemma rate_limit_never_rejects (f : handler) (w : world) (req : request) (st : state)
    (r : response) :
  (rate_limit f w req st).1 = Return r ->
  exists st', (f w req st').1 = Return r.
Proof.
  rewrite rate_limit_run. destruct (decide _); [|discriminate].
  intros H. eexists. exact H.
Qed.

(** C5 (the code departs from it). The first request to /create_payment
    gets past the limiter, which records it and hands it to the handler; the
    second one, from the same client one second later, is neither let
    through nor rejected with 429: the clean-up raises TypeError out of the
    route, and the table is left as it was, so that every later request
    meets the same end. *)
Theorem rate_limit_second_request_raises :
  let route := create_payment_route Demo.currencies Demo.cryptos in
  let first := route Demo.w_create Demo.req_25 initial_state in
  let w_next := World (time_time Demo.w_create + 1) Demo.five_past Demo.rates_down
                      Demo.stub_provider Demo.bad_signature WriteOk Demo.qr_stub in
  first = create_payment Demo.currencies Demo.cryptos Demo.w_create Demo.req_25
            (set_ip_requests (<["203.0.113.7" := [1705320000%Q]]> ∅) initial_state)
  /\ ip_requests first.2 = <["203.0.113.7" := [1705320000%Q]]> ∅
  /\ route w_next Demo.req_25 first.2 = (Raise TypeError, first.2).
Proof.
  cbv zeta. split; [|split].
  - unfold create_payment_route. rewrite rate_limit_run.
    destruct (decide _) as [_|Hsome]; [reflexivity|]. destruct Hsome. reflexivity.
  - vm_compute. reflexivity.
  - unfold create_payment_route. rewrite rate_limit_run.
    destruct (decide _) as [Hempty|_]; [|reflexivity].
    exfalso. apply (f_equal (fun m => m !! "203.0.113.7")) in Hempty.
    vm_compute in Hempty. discriminate Hempty.
Qed.

(** Whatever notification [webhook] is given, the records it leaves are the
    records it found, at most one of them marked; only a write that broke
    off leaves none. *)
Lemma webhook_ledger (w : world) (req : request) (st : state) :
  (write_history w = WriteTorn /\ stored_records (webhook w req st).2 = [])
  \/ Forall2 (fun p p' => p' = p \/ p' = confirmed_record (datetime_now w) p)
       (stored_records st) (stored_records (webhook w req st).2).
Proof.
  assert (Hrefl : forall h : list (gmap string jval),
            Forall2 (fun p p' => p' = p \/ p' = confirmed_record (datetime_now w) p) h h).
  { intros h. apply Forall2_same_length_lookup_2; [reflexivity|].
    intros i x y Hx Hy. left. congruence. }
  destruct (construct_event w (data req) (X_CC_Webhook_Signature req)) as [ev|e] eqn:Hev.
  - destruct (String.eqb (Event.type ev) "charge:confirmed") eqn:Hty.
    + apply String.eqb_eq in Hty. rewrite (webhook_confirmed w req st ev Hev Hty).
      destruct (mark_completed _ _ _) as [history|e] eqn:Hmark; [|right; apply Hrefl].
      apply mark_completed_shape in Hmark as (marked & -> & Hshape).
      cbn [snd]. unfold written.
      destruct (write_history w); [|right; apply Hrefl|left; split; reflexivity].
      right. unfold stored_records at 2. simpl. rewrite json_dump_load. exact Hshape.
    + right. unfold webhook, try_except. rewrite run_lift_bind, Hev, Hty.
      apply Hrefl.
  - right. unfold webhook, try_except. rewrite run_lift_bind, Hev. apply Hrefl.
Qed.

(** Unless a write broke off, a notification keeps every stored record in
    its place, with its exchange rate. *)
Lemma webhook_keeps_exchange_rate (w : world) (req : request) (st : state) :
  write_history w <> WriteTorn ->
  length (stored_records (webhook w req st).2) = length (stored_records st)
  /\ forall i p, stored_records st !! i = Some p ->
       exists p', stored_records (webhook w req st).2 !! i = Some p'
                  /\ p' !! "exchange_rate" = p !! "exchange_rate".
Proof.
  intros Htorn. destruct (webhook_ledger w req st) as [[Hw _]|Hshape]; [contradiction|].
  split; [symmetry; exact (Forall2_length _ _ _ Hshape)|].
  intros i p Hp.
  destruct (Forall2_lookup_l _ _ _ _ _ Hshape Hp) as (p' & Hp' & [->| ->]).
  - exists p. split; [exact Hp'|reflexivity].
  - eexists. split; [exact Hp'|].
    apply confirmed_record_other_keys; discriminate.
Qed.

(** ** Charge creation *)

Section CreatePayment.

Context (SUPPORTED_CURRENCIES : list string) (SUPPORTED_CRYPTOS : gmap string string).

Local Abbreviation create := (create_payment SUPPORTED_CURRENCIES SUPPORTED_CRYPTOS).

(** The request sent to the provider and the record built from its answer,
    as [create_payment] composes them. *)
Local Abbreviation charge_request req amount crypto_name exchange_rate :=
  (ChargeCreate.mk "Payment"
     (default ("Payment in " +:+ crypto_name) (description_field (json req)))
     "fixed_price" amount (default "USD" (currency_field (json req)))
     (charge_metadata (customer_email_field (json req))
        (default "BTC" (crypto_field (json req)))
        (default "USD" (currency_field (json req))) exchange_rate)).

Local Abbreviation record_of w req amount crypto_name exchange_rate charge :=
  (PaymentInfo.mk (Charge.id charge) amount (default "USD" (currency_field (json req)))
     (default "BTC" (crypto_field (json req))) PENDING (datetime_now w)
     (Charge.hosted_url charge) (Some exchange_rate) (customer_email_field (json req))
     (Some (default ("Payment in " +:+ crypto_name) (description_field (json req))))).

(** [create_payment], step by step. The branch 'Unsupported cryptocurrency'
    is not among the steps: the lookup of the crypto's name comes first.
    The last step is the reply with the record, on which [jsonify] raises
    inside the [try]. *)
Lemma create_payment_run (w : world) (req : request) (st : state) :
  create w req st =
  match py_float (default (ANumber (Fin 0)) (amount_field (json req))) with
  | Raise e => (Return (Response (FailureOf e) 500), st)
  | Return amount =>
    match SUPPORTED_CRYPTOS !! default "BTC" (crypto_field (json req)) with
    | None =>
        (Return (Response (FailureOf (KeyError (default "BTC" (crypto_field (json req))))) 500),
         st)
    | Some crypto_name =>
      if float_le0 amount then (Return (Response (Failure "Invalid amount") 400), st)
      else if negb (bool_decide (default "USD" (currency_field (json req))
                                   ∈ SUPPORTED_CURRENCIES))
      then (Return (Response (Failure "Unsupported currency") 400), st)
      else
        match get_exchange_rates w st with
        | (Raise e, st0) => (Return (Response (FailureOf e) 500), st0)
        | (Return exchange_rates, st0) =>
          let exchange_rate :=
            default (Fin 1)
              (exchange_rates !! default "USD" (currency_field (json req))) in
          let r := charge_request req amount crypto_name exchange_rate in
          match charge_create w r with
          | Raise e => (Return (Response (FailureOf e) 500), log_call r st0)
          | Return charge =>
            match qrcode_png w (Charge.hosted_url charge) with
            | Raise e => (Return (Response (FailureOf e) 500), log_call r st0)
            | Return img_byte_arr =>
              (Return (Response (FailureOf TypeError) 500),
               written w
                 (json_load (stored_records (log_call r st0))
                  ++ [PaymentInfo.__dict__
                        (record_of w req amount crypto_name exchange_rate charge)])
                 (log_call r st0))
            end
          end
        end
    end
  end.
Proof.
  unfold create_payment, try_except. rewrite run_lift_bind.
  destruct (py_float _) as [amount|e]; [|reflexivity].
  rewrite run_lift_bind. unfold getitem.
  destruct (SUPPORTED_CRYPTOS !! _) as [crypto_name|] eqn:Hcrypto; [|reflexivity].
  rewrite run_lift_bind. unfold validate_payment_amount, py_float.
  destruct (float_le0 amount); [reflexivity|].
  cbn [negb].
  rewrite bool_decide_eq_true_2 by (apply elem_of_dom; eauto). cbn [negb].
  destruct (bool_decide _); [|reflexivity]. cbn [negb].
  unfold mbind at 1. unfold M_bind at 1.
  destruct (get_exchange_rates w st) as [[exchange_rates|e] st0]; [|reflexivity].
  unfold client_charge_create.
  unfold mbind at 1. unfold M_bind at 1.
  unfold mbind at 1. unfold M_bind at 1. unfold modify at 1. unfold lift at 1.
  destruct (charge_create w _) as [charge|e]; [|reflexivity].
  rewrite run_lift_bind.
  destruct (qrcode_png w _) as [img_byte_arr|e]; [|reflexivity].
  unfold load_payment_history, save_payment_history, written, stored_records, reply.
  unfold mbind, M_bind, get, modify, mret, M_ret, lift.
  destruct (payment_history_json _); destruct (write_history w); reflexivity.
Qed.

Lemma float_gt0_not_le0 (x : pyfloat) : float_gt0 x = true -> float_le0 x = false.
Proof. destruct x as [q| | |]; simpl; try discriminate; [|reflexivity].
       destruct (Qle_bool q 0); [discriminate|reflexivity]. Qed.

Lemma stored_records_appended (w : world) (st : state) (d : gmap string pyval) :
  write_history w = WriteOk ->
  stored_records (written w (json_load (stored_records st) ++ [d]) st)
  = stored_records st ++ [to_json <$> d].
Proof.
  intros Hw. unfold written. rewrite Hw. unfold stored_records at 1. simpl.
  rewrite json_dump_app, json_dump_load. reflexivity.
Qed.

Lemma provider_log_written (w : world) (h : list (gmap string pyval)) (st : state) :
  provider_log (written w h st) = provider_log st.
Proof. unfold written. destruct (write_history w); reflexivity. Qed.

(** [create_payment] calls the provider at most once; when it does not,
    it changes nothing at all. *)
Lemma create_payment_calls (w : world) (req : request) (st : state) :
  create w req st = ((create w req st).1, st)
  \/ exists amount crypto_name exchange_rate,
       provider_log (create w req st).2
       = provider_log st ++ [charge_request req amount crypto_name exchange_rate].
Proof.
  rewrite create_payment_run.
  destruct (py_float _) as [amount|e]; [|left; reflexivity].
  destruct (SUPPORTED_CRYPTOS !! _) as [crypto_name|]; [|left; reflexivity].
  destruct (float_le0 amount); [left; reflexivity|].
  destruct (bool_decide _); [|left; reflexivity]. cbn [negb].
  destruct (get_exchange_rates_total w st) as (rs & c & ->).
  right. exists amount, crypto_name.
  exists (default (Fin 1) (rs !! default "USD" (currency_field (json req)))).
  cbv zeta. destruct (charge_create w _) as [charge|e]; [|reflexivity].
  destruct (qrcode_png w _); cbn [snd]; rewrite ?provider_log_written; reflexivity.
Qed.

(** The provider is called only with an amount that is not [<= 0], and
    with the metadata that [charge_metadata] composes. *)
Lemma create_payment_call (w : world) (req : request) (st : state)
    (r : ChargeCreate.t) :
  provider_log (create w req st).2 = provider_log st ++ [r] ->
  py_float (default (ANumber (Fin 0)) (amount_field (json req)))
    = Return (ChargeCreate.local_price_amount r)
  /\ float_le0 (ChargeCreate.local_price_amount r) = false
  /\ ChargeCreate.local_price_currency r = default "USD" (currency_field (json req))
  /\ exists x,
       ChargeCreate.metadata r
       = charge_metadata (customer_email_field (json req))
           (default "BTC" (crypto_field (json req)))
           (default "USD" (currency_field (json req))) x.
Proof.
  intros Hlog. rewrite create_payment_run in Hlog.
  assert (Hno : forall l : list ChargeCreate.t, l = l ++ [r] -> False).
  { intros l Hl. apply (f_equal length) in Hl. rewrite length_app in Hl.
    simpl in Hl. lia. }
  destruct (py_float _) as [amount|e]; [|destruct (Hno _ Hlog)].
  destruct (SUPPORTED_CRYPTOS !! _) as [name|]; [|destruct (Hno _ Hlog)].
  destruct (float_le0 amount) eqn:Hle; [destruct (Hno _ Hlog)|].
  destruct (bool_decide _); [|destruct (Hno _ Hlog)]. cbn [negb] in Hlog.
  destruct (get_exchange_rates_total w st) as (rs & c & Hrates).
  rewrite Hrates in Hlog. cbv zeta in Hlog.
  destruct (charge_create w _); [destruct (qrcode_png w _)|]; cbn [snd] in Hlog;
    rewrite ?provider_log_written in Hlog;
    apply app_inv_head in Hlog; injection Hlog as <-;
    (split; [reflexivity|]); (split; [exact Hle|]); (split; [reflexivity|]);
    eexists; reflexivity.
Qed.

(** The course of a request that passes the checks: the rates are looked
    up, the provider is called once, and what follows depends on the
    provider, on the QR encoder and on the write of the history. The reply
    is a failure with status 500 in every case. *)
Lemma create_payment_checked (w : world) (req : request) (st : state)
    (amount : pyfloat) (crypto_name : string) :
  py_float (default (ANumber (Fin 0)) (amount_field (json req))) = Return amount ->
  float_le0 amount = false ->
  SUPPORTED_CRYPTOS !! default "BTC" (crypto_field (json req)) = Some crypto_name ->
  default "USD" (currency_field (json req)) ∈ SUPPORTED_CURRENCIES ->
  exists rs c,
    get_exchange_rates w st = (Return rs, set_cache c st)
    /\ let exchange_rate :=
         default (Fin 1) (rs !! default "USD" (currency_field (json req))) in
       let call := charge_request req amount crypto_name exchange_rate in
       provider_log (create w req st).2 = provider_log st ++ [call]
       /\ (forall e, charge_create w call = Raise e ->
             create w req st
             = (Return (Response (FailureOf e) 500), log_call call (set_cache c st)))
       /\ (forall charge e, charge_create w call = Return charge ->
             qrcode_png w (Charge.hosted_url charge) = Raise e ->
             create w req st
             = (Return (Response (FailureOf e) 500), log_call call (set_cache c st)))
       /\ (forall charge img, charge_create w call = Return charge ->
             qrcode_png w (Charge.hosted_url charge) = Return img ->
             create w req st
             = (Return (Response (FailureOf TypeError) 500),
                written w
                  (json_load (stored_records st)
                   ++ [PaymentInfo.__dict__
                         (record_of w req amount crypto_name exchange_rate charge)])
                  (log_call call (set_cache c st)))).
Proof.
  intros Ha Hle Hname Hcur.
  pose proof (create_payment_run w req st) as Hrun.
  rewrite Ha, Hname, Hle in Hrun.
  rewrite bool_decide_eq_true_2 in Hrun by exact Hcur. cbn [negb] in Hrun.
  destruct (get_exchange_rates_total w st) as (rs & c & Hrates).
  rewrite Hrates in Hrun. cbv zeta in Hrun.
  exists rs, c. split; [exact Hrates|]. cbv zeta.
  split.
  { rewrite Hrun. destruct (charge_create w _); [destruct (qrcode_png w _)|];
      cbn [snd]; rewrite ?provider_log_written; reflexivity. }
  split; [intros e He; rewrite Hrun, He; reflexivity|].
  split; [intros charge e Hc Hq; rewrite Hrun, Hc, Hq; reflexivity|].
  intros charge img Hc Hq. rewrite Hrun, Hc, Hq. reflexivity.
Qed.

(** What [create_payment] does to the stored records: nothing, or it loses
    them in a write that breaks off, or it appends one pending record. *)
Lemma create_payment_ledger (w : world) (req : request) (st : state) :
  stored_records (create w req st).2 = stored_records st
  \/ (write_history w = WriteTorn /\ stored_records (create w req st).2 = [])
  \/ (write_history w = WriteOk
      /\ exists info,
           PaymentInfo.status info = PENDING
           /\ stored_records (create w req st).2
              = stored_records st ++ [to_json <$> PaymentInfo.__dict__ info]).
Proof.
  rewrite create_payment_run.
  destruct (py_float _) as [amount|e]; [|left; reflexivity].
  destruct (SUPPORTED_CRYPTOS !! _) as [name|]; [|left; reflexivity].
  destruct (float_le0 amount); [left; reflexivity|].
  destruct (bool_decide _); [|left; reflexivity]. cbn [negb].
  destruct (get_exchange_rates_total w st) as (rs & c & ->). cbv zeta.
  destruct (charge_create w _) as [charge|e]; [|left; reflexivity].
  destruct (qrcode_png w _) as [img|e]; [|left; reflexivity]. cbn [snd].
  destruct (write_history w) eqn:Hw.
  - right. right. split; [reflexivity|]. eexists. split; cycle 1.
    + rewrite (stored_records_appended w _ _ Hw). reflexivity.
    + reflexivity.
  - left. unfold written. rewrite Hw. reflexivity.
  - right. left. split; [reflexivity|]. unfold written. rewrite Hw. reflexivity.
Qed.

(** C3 (amended). Whenever [create_payment] calls the provider, the
    metadata of the call holds five entries: [customer_id], which is the
    MD5 hex digest of the customer email ('anonymous' when the email is
    absent or empty), [customer_email], which is the email itself as it
    was posted, and the crypto, the currency and the exchange rate. *)
Theorem create_payment_metadata (w : world) (req : request) (st : state)
    (r : ChargeCreate.t) :
  provider_log (create w req st).2 = provider_log st ++ [r] ->
  let email := customer_email_field (json req) in
  ChargeCreate.metadata r !! "customer_id" = Some (PStr (customer_id_of email))
  /\ ChargeCreate.metadata r !! "customer_email" = Some (opt_str email)
  /\ ChargeCreate.metadata r !! "crypto"
     = Some (PStr (default "BTC" (crypto_field (json req))))
  /\ ChargeCreate.metadata r !! "currency"
     = Some (PStr (default "USD" (currency_field (json req))))
  /\ (exists x, ChargeCreate.metadata r !! "exchange_rate" = Some (PFloat x))
  /\ dom (ChargeCreate.metadata r)
     = list_to_set ["customer_id"; "customer_email"; "crypto"; "currency"; "exchange_rate"].
Proof.
  intros Hlog email.
  destruct (create_payment_call w req st r Hlog) as (_ & _ & _ & x & ->).
  unfold charge_metadata. subst email.
  split.
  { rewrite lookup_insert_eq. unfold customer_id_of.
    destruct (customer_email_field (json req)) as [e|]; [|reflexivity].
    destruct (String.eqb e ""); reflexivity. }
  split; [reflexivity|]. split; [reflexivity|]. split; [reflexivity|].
  split; [exists x; reflexivity|].
  rewrite !dom_insert_L, dom_empty_L. simpl. reflexivity.
Qed.

(** An amount that [float()] cannot read ends in the catch-all handler:
    status 500, nothing changed, the provider not called. *)
Lemma create_payment_amount_unreadable (w : world) (req : request) (st : state) (e : exn) :
  py_float (default (ANumber (Fin 0)) (amount_field (json req))) = Raise e ->
  create w req st = (Return (Response (FailureOf e) 500), st).
Proof. intros H. rewrite create_payment_run, H. reflexivity. Qed.

(** A number that is not above zero is refused with 'Invalid amount' and
    status 400, provided the crypto is a supported one; nothing changes
    and the provider is not called. *)
Lemma create_payment_amount_not_positive (w : world) (req : request) (st : state)
    (amount : pyfloat) :
  py_float (default (ANumber (Fin 0)) (amount_field (json req))) = Return amount ->
  float_le0 amount = true ->
  default "BTC" (crypto_field (json req)) ∈ dom SUPPORTED_CRYPTOS ->
  create w req st = (Return (Response (Failure "Invalid amount") 400), st).
Proof.
  intros Ha Hle Hcry. apply elem_of_dom in Hcry as [name Hname].
  rewrite create_payment_run, Ha, Hname, Hle. reflexivity.
Qed.

(** With an unsupported crypto the same amount ends in the catch-all
    handler instead: the default description is computed first. *)
Lemma create_payment_unsupported_crypto (w : world) (req : request) (st : state)
    (amount : pyfloat) :
  py_float (default (ANumber (Fin 0)) (amount_field (json req))) = Return amount ->
  default "BTC" (crypto_field (json req)) ∉ dom SUPPORTED_CRYPTOS ->
  create w req st
  = (Return (Response (FailureOf (KeyError (default "BTC" (crypto_field (json req))))) 500),
     st).
Proof.
  intros Ha Hcry. apply not_elem_of_dom in Hcry.
  rewrite create_payment_run, Ha, Hcry. reflexivity.
Qed.

(** [create_payment] leaves the records it found as they are. *)
Lemma create_payment_keeps_records (w : world) (req : request) (st : state)
    (i : nat) (p : gmap string jval) :
  stored_records (create w req st).2 !! i = Some p ->
  (i < length (stored_records st))%nat ->
  stored_records st !! i = Some p.
Proof.
  destruct (create_payment_ledger w req st) as [->|[[_ ->]|(_ & info & _ & ->)]].
  - tauto.
  - discriminate.
  - intros Hi Hlt. rewrite lookup_app_l in Hi by exact Hlt. exact Hi.
Qed.

(** Unless its write breaks off, [create_payment] keeps every stored record
    in its place. *)
Lemma create_payment_keeps_records_in_place (w : world) (req : request) (st : state)
    (i : nat) (p : gmap string jval) :
  write_history w <> WriteTorn ->
  stored_records st !! i = Some p ->
  stored_records (create w req st).2 !! i = Some p.
Proof.
  intros Htorn Hp.
  destruct (create_payment_ledger w req st) as [->|[[Hw _]|(_ & info & _ & ->)]].
  - exact Hp.
  - contradiction.
  - apply lookup_app_l_Some. exact Hp.
Qed.

(** The record of a charge as it is stored. *)
Lemma stored_form_exchange_rate (info : PaymentInfo.t) (x : pyfloat) :
  PaymentInfo.exchange_rate info = Some x ->
  (to_json <$> PaymentInfo.__dict__ info) !! "exchange_rate" = Some (JNum x).
Proof.
  intros Hx. rewrite lookup_fmap. unfold PaymentInfo.__dict__.
  rewrite !(lookup_insert_ne _ _ "exchange_rate") by discriminate.
  rewrite lookup_insert_eq, Hx. reflexivity.
Qed.

Lemma stored_form_key (info : PaymentInfo.t) :
  (to_json <$> PaymentInfo.__dict__ info) !! "id" = Some (JStr (PaymentInfo.id info))
  /\ (to_json <$> PaymentInfo.__dict__ info) !! "currency"
     = Some (JStr (PaymentInfo.currency info))
  /\ (to_json <$> PaymentInfo.__dict__ info) !! "crypto"
     = Some (JStr (PaymentInfo.crypto info)).
Proof.
  rewrite !lookup_fmap. unfold PaymentInfo.__dict__.
  split; [rewrite lookup_insert_eq; reflexivity|].
  split.
  - rewrite !(lookup_insert_ne _ _ "currency") by discriminate.
    rewrite lookup_insert_eq. reflexivity.
  - rewrite !(lookup_insert_ne _ _ "crypto") by discriminate.
    rewrite lookup_insert_eq. reflexivity.
Qed.

(** C7 (amended). When the rates that [get_exchange_rates] returns at
    creation have no entry for the currency of a request that passes the
    checks, the creation goes on: the provider is called, with the exchange
    rate 1.0 in the metadata, and the record that is stored for the charge
    has the exchange rate 1.0, not null. Afterwards no notification and no
    creation whose write does not break off changes the exchange rate of a
    stored record, or removes the record. *)
Theorem create_payment_rate_absent (w : world) (req : request) (st : state)
    (amount : pyfloat) (crypto_name : string) (rs : gmap string pyfloat) :
  py_float (default (ANumber (Fin 0)) (amount_field (json req))) = Return amount ->
  float_le0 amount = false ->
  SUPPORTED_CRYPTOS !! default "BTC" (crypto_field (json req)) = Some crypto_name ->
  default "USD" (currency_field (json req)) ∈ SUPPORTED_CURRENCIES ->
  (get_exchange_rates w st).1 = Return rs ->
  rs !! default "USD" (currency_field (json req)) = None ->
  (exists call,
      provider_log (create w req st).2 = provider_log st ++ [call]
      /\ ChargeCreate.metadata call !! "exchange_rate" = Some (PFloat (Fin 1))
      /\ forall charge img,
           charge_create w call = Return charge ->
           qrcode_png w (Charge.hosted_url charge) = Return img ->
           write_history w = WriteOk ->
           exists payment,
             stored_records (create w req st).2 = stored_records st ++ [payment]
             /\ payment !! "id" = Some (JStr (Charge.id charge))
             /\ payment !! "exchange_rate" = Some (JNum (Fin 1)))
  /\ (forall w' req' st',
        write_history w' <> WriteTorn ->
        length (stored_records (webhook w' req' st').2) = length (stored_records st')
        /\ forall i p, stored_records st' !! i = Some p ->
             exists p', stored_records (webhook w' req' st').2 !! i = Some p'
                        /\ p' !! "exchange_rate" = p !! "exchange_rate")
  /\ (forall w' req' st' i p,
        write_history w' <> WriteTorn ->
        stored_records st' !! i = Some p ->
        stored_records (create w' req' st').2 !! i = Some p).
Proof.
  intros Ha Hle Hname Hcur Hrates Habsent.
  destruct (create_payment_checked w req st amount crypto_name Ha Hle Hname Hcur)
    as (rs' & c & Hget & Hlog & _ & _ & Hstored).
  rewrite Hget in Hrates. injection Hrates as ->.
  rewrite Habsent in Hlog, Hstored. cbn [default from_option id] in Hlog, Hstored.
  split; [|split].
  - eexists. split; [exact Hlog|]. split; [reflexivity|].
    intros charge img Hc Hq Hw. rewrite (Hstored charge img Hc Hq).
    eexists. split.
    + change (stored_records st)
        with (stored_records
                (log_call (charge_request req amount crypto_name (Fin 1)) (set_cache c st))).
      apply stored_records_appended. exact Hw.
    + split; [apply stored_form_key|].
      apply stored_form_exchange_rate. reflexivity.
  - intros w' req' st'. apply webhook_keeps_exchange_rate.
  - intros w' req' st' i p. apply create_payment_keeps_records_in_place.
Qed.

(** C10. The currency and the crypto of a request are the posted ones, or
    'USD' and 'BTC' where the body leaves the key out; a body that leaves
    them out is handled exactly as the same body with the two values
    spelled out. With an amount that passes, these are the values that are
    validated (a crypto that is not supported ends in KeyError and status
    500, a currency that is not supported in 'Unsupported currency' and
    status 400) and, when both are supported, the values with which the
    provider is called and the record of the charge is stored. *)
Theorem create_payment_defaults (w : world) (req : request) (st : state)
    (amount : pyfloat) :
  py_float (default (ANumber (Fin 0)) (amount_field (json req))) = Return amount ->
  float_le0 amount = false ->
  let currency := default "USD" (currency_field (json req)) in
  let crypto := default "BTC" (crypto_field (json req)) in
  create w req st = create w (with_defaults req) st
  /\ (crypto ∉ dom SUPPORTED_CRYPTOS ->
      create w req st = (Return (Response (FailureOf (KeyError crypto)) 500), st))
  /\ (crypto ∈ dom SUPPORTED_CRYPTOS -> currency ∉ SUPPORTED_CURRENCIES ->
      create w req st = (Return (Response (Failure "Unsupported currency") 400), st))
  /\ (crypto ∈ dom SUPPORTED_CRYPTOS -> currency ∈ SUPPORTED_CURRENCIES ->
      exists call,
        provider_log (create w req st).2 = provider_log st ++ [call]
        /\ ChargeCreate.local_price_currency call = currency
        /\ ChargeCreate.metadata call !! "currency" = Some (PStr currency)
        /\ ChargeCreate.metadata call !! "crypto" = Some (PStr crypto)
        /\ forall charge img,
             charge_create w call = Return charge ->
             qrcode_png w (Charge.hosted_url charge) = Return img ->
             write_history w = WriteOk ->
             exists payment,
               stored_records (create w req st).2 = stored_records st ++ [payment]
               /\ payment !! "id" = Some (JStr (Charge.id charge))
               /\ payment !! "currency" = Some (JStr currency)
               /\ payment !! "crypto" = Some (JStr crypto)).
Proof.
  intros Ha Hle currency crypto. subst currency crypto.
  split; [reflexivity|]. split; [|split].
  - intros Hcry. apply create_payment_unsupported_crypto with (amount := amount); assumption.
  - intros Hcry Hcur. apply elem_of_dom in Hcry as [name Hname].
    rewrite create_payment_run, Ha, Hname, Hle.
    rewrite bool_decide_eq_false_2 by exact Hcur. reflexivity.
  - intros Hcry Hcur. apply elem_of_dom in Hcry as [name Hname].
    destruct (create_payment_checked w req st amount name Ha Hle Hname Hcur)
      as (rs & c & _ & Hlog & _ & _ & Hstored).
    cbv zeta in Hlog, Hstored.
    eexists. split; [exact Hlog|]. split; [reflexivity|].
    split; [reflexivity|]. split; [reflexivity|].
    intros charge img Hc Hq Hw. rewrite (Hstored charge img Hc Hq).
    eexists. split.
    + match goal with
      | |- context [written w _ ?s] => change (stored_records st) with (stored_records s)
      end.
      apply stored_records_appended. exact Hw.
    + apply stored_form_key.
Qed.

End CreatePayment.

(** ** The statements at the sample inputs *)

Lemma demo_usd_supported : "USD" ∈ Demo.currencies.
Proof. apply list_elem_of_here. Qed.

Lemma demo_btc_supported : "BTC" ∈ dom Demo.cryptos.
Proof. apply elem_of_dom. exists "Bitcoin". reflexivity. Qed.

(** C1 (the code departs from it). A request with a positive amount, a
    supported currency and a supported crypto, served while the provider
    answers with the charge [ch_1], is not answered with the payment
    record: the charge is created at the provider and its record is
    written to the history, and then [jsonify] raises TypeError on the reply
    that holds the record, so that the reply is the failure with status
    500, the one that a failure of the provider gets. When the history file
    cannot be opened, the reply is the same and the record is nowhere. *)
Theorem create_payment_valid_request_fails :
  let out := create_payment Demo.currencies Demo.cryptos Demo.w_create Demo.req_25
               initial_state in
  let out' := create_payment Demo.currencies Demo.cryptos Scenario.w_create_refused
                Demo.req_25 initial_state in
  out.1 = Return (Response (FailureOf TypeError) 500)
  /\ (exists call, provider_log out.2 = [call]
                   /\ charge_create Demo.w_create call = Return Demo.ch_1)
  /\ stored_records out.2 = Demo.ledger_ch_1
  /\ out'.1 = Return (Response (FailureOf TypeError) 500)
  /\ length (provider_log out'.2) = 1%nat
  /\ stored_records out'.2 = [].
Proof.
  cbv zeta. split; [vm_compute; reflexivity|].
  split; [eexists; split; [vm_compute; reflexivity|reflexivity]|].
  split; [vm_compute; reflexivity|].
  split; [vm_compute; reflexivity|].
  split; vm_compute; reflexivity.
Qed.

(** C1 at the provider's failure: status 500, and no record. *)
Example create_payment_provider_down :
  create_payment Demo.currencies Demo.cryptos Demo.w_create_provider_down Demo.req_25
    initial_state
  = (Return (Response (FailureOf (CollaboratorError "provider unavailable")) 500),
     log_call (ChargeCreate.mk "Payment" "Payment in Bitcoin" "fixed_price" (Fin 25) "USD"
                 (charge_metadata None "BTC" "USD" (Fin 1))) initial_state).
Proof. vm_compute. reflexivity. Qed.

(** The scenario of the specification: the charge [ch_1] is created, then
    confirmed. *)
Example create_then_confirm :
  let created :=
    (create_payment Demo.currencies Demo.cryptos Demo.w_create Demo.req_25 initial_state).2 in
  stored_records created = Demo.ledger_ch_1
  /\ stored_records (webhook Demo.w_confirm Demo.notification created).2
     = [confirmed_record Demo.noon (hd ∅ Demo.ledger_ch_1)].
Proof. split; vm_compute; reflexivity. Qed.

Lemma create_payment_metadata_witness :
  let r := ChargeCreate.mk "Payment" "Payment in Bitcoin" "fixed_price" (Fin 25) "USD"
             (charge_metadata (Some "alice@example.com") "BTC" "USD" (Fin 1)) in
  ChargeCreate.metadata r !! "customer_id" = Some (PStr "c160f8cc69a4f0bf2b0362752353d060")
  /\ ChargeCreate.metadata r !! "customer_email" = Some (PStr "alice@example.com").
Proof.
  intros r.
  destruct (create_payment_metadata Demo.currencies Demo.cryptos Demo.w_create
              Demo.req_alice initial_state r eq_refl) as (Hid & Hemail & _).
  split; [exact Hid|exact Hemail].
Defined.

(** C3 as stated fails: the metadata sent for a customer with an email
    holds that email in clear, under [customer_email]. *)
Lemma create_payment_sends_raw_email :
  exists r,
    provider_log (create_payment Demo.currencies Demo.cryptos Demo.w_create
                    Demo.req_alice initial_state).2 = [r]
    /\ ChargeCreate.metadata r !! "customer_email" = Some (PStr "alice@example.com").
Proof.
  eexists. split; [vm_compute; reflexivity|]. vm_compute. reflexivity.
Qed.

(** C6 (the code departs from it). The body {"amount": "abc", "currency":
    "USD", "crypto": "BTC"} is not answered with the validation failure
    ('Invalid amount', 400) but with status 500 and the text of the
    ValueError that [float()] raised; the provider is not called. *)
Theorem create_payment_text_amount :
  create_payment Demo.currencies Demo.cryptos Demo.w_create Demo.req_abc initial_state
  = (Return (Response (FailureOf ValueError) 500), initial_state)
  /\ validate_payment_amount AText "USD" = Return false.
Proof. split; reflexivity. Qed.

(** An amount of NaN passes the validation and reaches the provider. *)
Example create_payment_nan_amount :
  let out := create_payment Demo.currencies Demo.cryptos Demo.w_create
               (Demo.post (Demo.body_of_amount (Some (ANumber NaN)) None)) initial_state in
  length (provider_log out.2) = 1%nat.
Proof. vm_compute. reflexivity. Qed.

Lemma create_payment_rate_absent_witness :
  exists call payment,
    provider_log (create_payment Demo.currencies Demo.cryptos Demo.w_create Demo.req_25
                    initial_state).2 = [] ++ [call]
    /\ ChargeCreate.metadata call !! "exchange_rate" = Some (PFloat (Fin 1))
    /\ stored_records (create_payment Demo.currencies Demo.cryptos Demo.w_create Demo.req_25
                         initial_state).2 = [] ++ [payment]
    /\ payment !! "exchange_rate" = Some (JNum (Fin 1)).
Proof.
  destruct (create_payment_rate_absent Demo.currencies Demo.cryptos Demo.w_create
              Demo.req_25 initial_state (Fin 25) "Bitcoin" ∅
              eq_refl eq_refl eq_refl demo_usd_supported eq_refl eq_refl)
    as ((call & Hlog & Hmeta & Hstored) & _).
  destruct (Hstored Demo.ch_1 ("89504e47:" +:+ "https://pay.example/ch_1"))
    as (payment & Hrec & _ & Hrate).
  - injection Hlog as <-. reflexivity.
  - reflexivity.
  - reflexivity.
  - exists call, payment. repeat split; assumption.
Defined.

(** C7 as stated fails: with no rate for the currency (the cache is empty
    and the rate provider is down) the exchange rate of the record that is
    stored for the charge is not null but 1.0. *)
Lemma create_payment_rate_absent_not_null :
  exists payment,
    (get_exchange_rates Demo.w_create initial_state).1 = Return ∅
    /\ stored_records (create_payment Demo.currencies Demo.cryptos Demo.w_create Demo.req_25
                         initial_state).2 = [payment]
    /\ payment !! "exchange_rate" = Some (JNum (Fin 1))
    /\ payment !! "exchange_rate" <> Some JNull.
Proof.
  eexists. split; [reflexivity|]. split; [vm_compute; reflexivity|].
  split; [vm_compute; reflexivity|]. vm_compute. discriminate.
Qed.

Lemma create_payment_defaults_witness :
  exists call payment,
    provider_log (create_payment Demo.currencies Demo.cryptos Demo.w_create Demo.req_bare
                    initial_state).2 = [] ++ [call]
    /\ ChargeCreate.local_price_currency call = "USD"
    /\ ChargeCreate.metadata call !! "crypto" = Some (PStr "BTC")
    /\ stored_records (create_payment Demo.currencies Demo.cryptos Demo.w_create
                         Demo.req_bare initial_state).2 = [] ++ [payment]
    /\ payment !! "currency" = Some (JStr "USD")
    /\ payment !! "crypto" = Some (JStr "BTC").
Proof.
  destruct (create_payment_defaults Demo.currencies Demo.cryptos Demo.w_create
              Demo.req_bare initial_state (Fin 25) eq_refl eq_refl)
    as (_ & _ & _ & Hcall).
  destruct (Hcall demo_btc_supported demo_usd_supported)
    as (call & Hlog & Hprice & _ & Hcrypto & Hstored).
  destruct (Hstored Demo.ch_1 ("89504e47:" +:+ "https://pay.example/ch_1"))
    as (payment & Hrec & _ & Hcur & Hcry).
  - injection Hlog as <-. reflexivity.
  - reflexivity.
  - reflexivity.
  - exists call, payment. repeat split; assumption.
Defined.

(** * Further properties of the code *)

(** ** Exchange rate cache, continued *)

(** The three ways [get_exchange_rates] ends. *)
Lemma get_exchange_rates_cases (w : world) (st : state) :
  (Qlt_bool (time_time w - timestamp (exchange_rate_cache st)) CACHE_DURATION = true
   /\ get_exchange_rates w st = (Return (rates (exchange_rate_cache st)), st))
  \/ (Qlt_bool (time_time w - timestamp (exchange_rate_cache st)) CACHE_DURATION = false
      /\ exists rs, requests_get_rates w = Return rs
         /\ get_exchange_rates w st = (Return rs, set_cache (Cache rs (time_time w)) st))
  \/ (Qlt_bool (time_time w - timestamp (exchange_rate_cache st)) CACHE_DURATION = false
      /\ (exists e, requests_get_rates w = Raise e)
      /\ get_exchange_rates w st = (Return (rates (exchange_rate_cache st)), st)).
Proof.
  unfold get_exchange_rates. rewrite run_get_bind.
  destruct (Qlt_bool _ _); [left; split; reflexivity|right].
  unfold try_except. rewrite run_lift_bind.
  destruct (requests_get_rates w) as [rs|e].
  - left. split; [reflexivity|]. exists rs. split; reflexivity.
  - right. split; [reflexivity|]. split; [exists e; reflexivity|reflexivity].
Qed.

(** X1. Whatever the clock and the rate provider say, [get_exchange_rates]
    returns the rates that the cache holds once the call is over and changes
    nothing but the cache; the cache is then either as it was or the fetched
    rates with the instant of the call, never a mixture of old and new. *)
Theorem get_exchange_rates_snapshot (w : world) (st : state) :
  exists c,
    get_exchange_rates w st = (Return (rates c), set_cache c st)
    /\ (c = exchange_rate_cache st
        \/ (requests_get_rates w = Return (rates c) /\ timestamp c = time_time w)).
Proof.
  destruct (get_exchange_rates_cases w st)
    as [[_ Hrun]|[(_ & rs & Hfetch & Hrun)|(_ & _ & Hrun)]].
  - exists (exchange_rate_cache st). split; [|left; reflexivity].
    rewrite Hrun. destruct st; reflexivity.
  - exists (Cache rs (time_time w)). split; [exact Hrun|].
    right. split; [exact Hfetch|reflexivity].
  - exists (exchange_rate_cache st). split; [|left; reflexivity].
    rewrite Hrun. destruct st; reflexivity.
Qed.

(** X2. Rates fetched by one call are served to every call made less than
    [CACHE_DURATION] seconds later, whatever the rate provider would answer
    then, and such a call changes nothing. *)
Theorem get_exchange_rates_within_the_hour (w1 w2 : world) (st : state)
    (rs : gmap string pyfloat) :
  Qlt_bool (time_time w1 - timestamp (exchange_rate_cache st)) CACHE_DURATION = false ->
  requests_get_rates w1 = Return rs ->
  Qlt_bool (time_time w2 - time_time w1) CACHE_DURATION = true ->
  (get_exchange_rates w1 st).1 = Return rs
  /\ get_exchange_rates w2 (get_exchange_rates w1 st).2
     = (Return rs, (get_exchange_rates w1 st).2).
Proof.
  intros Hstale Hfetch Hfresh.
  destruct (get_exchange_rates_cases w1 st)
    as [[Hf _]|[(_ & rs' & Hfetch' & Hrun)|(_ & [e He] & _)]]; [congruence| |congruence].
  rewrite Hfetch in Hfetch'. injection Hfetch' as <-.
  rewrite Hrun. split; [reflexivity|]. cbn [snd].
  destruct (get_exchange_rates_cases w2 (set_cache (Cache rs (time_time w1)) st))
    as [[_ Hrun2]|[(Hs & _)|(Hs & _)]]; [exact Hrun2| |];
    cbn in Hs; congruence.
Qed.

Lemma get_exchange_rates_within_the_hour_witness :
  get_exchange_rates
    (World 1705325400 Demo.five_past Demo.rates_down Demo.stub_provider
           Demo.bad_signature WriteOk Demo.qr_stub)
    (get_exchange_rates Scenario.w_one_hour Scenario.st_snapshot).2
  = (Return Scenario.usd_eur_new,
     (get_exchange_rates Scenario.w_one_hour Scenario.st_snapshot).2).
Proof.
  exact (proj2 (get_exchange_rates_within_the_hour Scenario.w_one_hour
                  (World 1705325400 Demo.five_past Demo.rates_down Demo.stub_provider
                         Demo.bad_signature WriteOk Demo.qr_stub)
                  Scenario.st_snapshot Scenario.usd_eur_new eq_refl eq_refl eq_refl)).
Defined.



(** X4. The function [get_exchange_rate], the handler that sits under the
    decorator [rate_limit], never answers 500 itself: it answers 200 with
    the rates and the fetch instant that the cache holds after the call, so
    that the instant reported is always the one at which the rates reported
    were fetched (0 and no rates before the first fetch). *)
Theorem get_exchange_rate_reply (w : world) (st : state) :
  exists c,
    get_exchange_rate w st
    = (Return (RatesResponse (Rates (rates c) (timestamp c)) 200), set_cache c st)
    /\ (c = exchange_rate_cache st
        \/ (requests_get_rates w = Return (rates c) /\ timestamp c = time_time w)).
Proof.
  unfold get_exchange_rate, try_except. unfold mbind at 1. unfold M_bind at 1.
  destruct (get_exchange_rates_cases w st)
    as [[_ Hrun]|[(_ & rs & Hfetch & Hrun)|(_ & _ & Hrun)]]; rewrite Hrun.
  - exists (exchange_rate_cache st). split; [|left; reflexivity].
    destruct st; reflexivity.
  - exists (Cache rs (time_time w)). split; [reflexivity|].
    right. split; [exact Hfetch|reflexivity].
  - exists (exchange_rate_cache st). split; [|left; reflexivity].
    destruct st; reflexivity.
Qed.

(** ** Rate limiter, continued *)

Lemma serve_raises (calls : list (handler * world * request)) (st : state) :
  ip_requests st <> ∅ ->
  serve calls st = (map (fun _ => Raise TypeError) calls, st).
Proof.
  intros Hsome. induction calls as [|[[f w] req] rest IH]; [reflexivity|].
  cbn [serve map]. rewrite rate_limit_run.
  destruct (decide (ip_requests st = ∅)) as [Hempty|_]; [contradiction|].
  rewrite IH. reflexivity.
Qed.

(** X5. Once the table of the limiter holds an entry, every request to a
    route under [rate_limit] raises TypeError, whatever the route, the
    client and the instant, however many requests follow; none of them
    changes the state, so the entry never expires. *)
Theorem rate_limit_never_recovers (calls : list (handler * world * request)) (st : state) :
  ip_requests st <> ∅ ->
  serve calls st = (map (fun _ => Raise TypeError) calls, st)
  /\ Forall (fun r => r = Raise TypeError) (serve calls st).1.
Proof.
  intros Hsome. rewrite (serve_raises calls st Hsome). split; [reflexivity|].
  cbn [fst]. apply Forall_forall. intros r Hr.
  apply list_elem_of_In, in_map_iff in Hr as (c & <- & _). reflexivity.
Qed.

Lemma rate_limit_never_recovers_witness :
  serve [(create_payment Demo.currencies Demo.cryptos, Demo.w_create, Demo.req_25);
         (create_payment Demo.currencies Demo.cryptos, Scenario.w_one_hour, Demo.req_alice)]
        Demo.st_one_request
  = ([Raise TypeError; Raise TypeError], Demo.st_one_request).
Proof.
  refine (proj1 (rate_limit_never_recovers
                   [(create_payment Demo.currencies Demo.cryptos, Demo.w_create, Demo.req_25);
                    (create_payment Demo.currencies Demo.cryptos, Scenario.w_one_hour,
                     Demo.req_alice)]
                   Demo.st_one_request _)).
  intros Hempty. apply (f_equal (fun m => m !! "203.0.113.7")) in Hempty.
  vm_compute in Hempty. discriminate Hempty.
Defined.

(** ** Validation and the history file, continued *)

(** X6. [validate_payment_amount] ignores the currency. On an integer
    beyond the range of float it lets the OverflowError of [float()] out,
    which its [except] does not name; on every other value it raises
    nothing and answers True exactly when [float()] reads the value and the
    number read is not [<= 0], which lets NaN and the positive infinity
    pass. *)
Theorem validate_payment_amount_spec (amount : jamount) (currency : string) :
  (amount = AHuge -> validate_payment_amount amount currency = Raise OverflowError)
  /\ (amount <> AHuge ->
      exists valid,
        validate_payment_amount amount currency = Return valid
        /\ (valid = true <->
            exists x, py_float amount = Return x /\ float_le0 x = false))
  /\ validate_payment_amount (ANumber NaN) currency = Return true
  /\ validate_payment_amount (ANumber PosInf) currency = Return true.
Proof.
  split; [intros ->; reflexivity|]. split; [|split; reflexivity].
  intros Hhuge. unfold validate_payment_amount.
  destruct amount as [x| | |]; cbn [py_float]; [| | |contradiction].
  - destruct (float_le0 x) eqn:Hle.
    + exists false. split; [reflexivity|].
      split; [discriminate|]. intros (y & [= <-] & Hy). congruence.
    + exists true. split; [reflexivity|].
      split; [|reflexivity]. intros _. exists x. split; [reflexivity|exact Hle].
  - exists false. split; [reflexivity|].
    split; [discriminate|]. intros (y & Hy & _). discriminate Hy.
  - exists false. split; [reflexivity|].
    split; [discriminate|]. intros (y & Hy & _). discriminate Hy.
Qed.

(** X7. A history that is saved and loaded again comes back with every
    value as [json.dump(.., default=str)] writes it, status members and
    datetimes as their text; a history that came from the file comes back
    as it is. When the file cannot be opened, [save_payment_history]
    answers False and the file keeps what it held. *)
Theorem save_then_load (w : world) (history : list (gmap string pyval)) (st : state) :
  write_history w = WriteOk ->
  (save_payment_history w history st).1 = Return true
  /\ (load_payment_history (save_payment_history w history st).2).1
     = Return (json_load (json_dump history))
  /\ (forall stored, history = json_load stored ->
        (load_payment_history (save_payment_history w history st).2).1 = Return history)
  /\ (forall w', write_history w' = WriteRefused ->
        save_payment_history w' history st = (Return false, st)).
Proof.
  intros Hw. unfold save_payment_history. rewrite Hw.
  split; [reflexivity|]. split; [reflexivity|]. split.
  - intros stored ->. cbn. rewrite json_dump_load. reflexivity.
  - intros w' Hw'. rewrite Hw'. reflexivity.
Qed.

Lemma save_then_load_witness :
  (load_payment_history
     (save_payment_history Demo.w_create (json_load Demo.ledger_ch_1) initial_state).2).1
  = Return (json_load Demo.ledger_ch_1).
Proof.
  exact (proj1 (proj2 (proj2
    (save_then_load Demo.w_create (json_load Demo.ledger_ch_1) initial_state eq_refl)))
    Demo.ledger_ch_1 eq_refl).
Defined.

(** ** Charge creation, continued *)

Ltac stored_lookup :=
  rewrite lookup_fmap; unfold PaymentInfo.__dict__;
  repeat (rewrite lookup_insert_ne by discriminate);
  rewrite ?lookup_insert_eq, ?lookup_empty; reflexivity.

Lemma stored_form_id (info : PaymentInfo.t) :
  (to_json <$> PaymentInfo.__dict__ info) !! "id" = Some (JStr (PaymentInfo.id info)).
Proof. stored_lookup. Qed.

Lemma stored_form_status (info : PaymentInfo.t) :
  (to_json <$> PaymentInfo.__dict__ info) !! "status"
  = Some (JStr (str_PaymentStatus (PaymentInfo.status info))).
Proof. stored_lookup. Qed.

Lemma stored_form_timestamp (info : PaymentInfo.t) :
  (to_json <$> PaymentInfo.__dict__ info) !! "timestamp"
  = Some (JStr (str_datetime (PaymentInfo.timestamp info))).
Proof. stored_lookup. Qed.

Lemma stored_form_completed_at (info : PaymentInfo.t) :
  (to_json <$> PaymentInfo.__dict__ info) !! "completed_at" = None.
Proof. stored_lookup. Qed.

Section CreatePaymentMore.

Context (SUPPORTED_CURRENCIES : list string) (SUPPORTED_CRYPTOS : gmap string string).

Local Abbreviation create := (create_payment SUPPORTED_CURRENCIES SUPPORTED_CRYPTOS).

(** The outcomes of [create_payment], by the state they leave. *)
Lemma create_payment_outcomes (w : world) (req : request) (st : state) :
  (exists r, create w req st = (Return r, st)
             /\ ((status_code r = 400 /\ exists message, body_of r = Failure message)
                 \/ (status_code r = 500 /\ exists e, body_of r = FailureOf e)))
  \/ (exists c call e,
        create w req st
        = (Return (Response (FailureOf e) 500), log_call call (set_cache c st)))
  \/ (exists c call info,
        create w req st
        = (Return (Response (FailureOf TypeError) 500),
           written w (json_load (stored_records st) ++ [PaymentInfo.__dict__ info])
             (log_call call (set_cache c st)))
        /\ PaymentInfo.status info = PENDING).
Proof.
  rewrite create_payment_run.
  destruct (py_float _) as [amount|e].
  2:{ left. eexists. split; [reflexivity|]. right. split; [reflexivity|].
      eexists. reflexivity. }
  destruct (SUPPORTED_CRYPTOS !! _) as [name|].
  2:{ left. eexists. split; [reflexivity|]. right. split; [reflexivity|].
      eexists. reflexivity. }
  destruct (float_le0 amount) eqn:Hle.
  { left. eexists. split; [reflexivity|]. left. split; [reflexivity|].
    eexists. reflexivity. }
  destruct (bool_decide _); cbn [negb].
  2:{ left. eexists. split; [reflexivity|]. left. split; [reflexivity|].
      eexists. reflexivity. }
  destruct (get_exchange_rates_total w st) as (rs & c & ->). cbv zeta.
  destruct (charge_create w _) as [charge|e] eqn:Hcharge.
  - destruct (qrcode_png w _) as [img|e].
    + right. right. eexists c, _, _. split; reflexivity.
    + right. left. eexists c, _, e. reflexivity.
  - right. left. eexists c, _, e. reflexivity.
Qed.

(** X8. [create_payment] never raises and never delivers the reply that
    carries the payment record: its reply is always a failure, a message
    with the status 400 or the text of an exception with the status 500. A
    reply 400 leaves the whole state as it was, and the provider is called
    at most once. *)
Theorem create_payment_replies (w : world) (req : request) (st : state) :
  exists r,
    (create w req st).1 = Return r
    /\ ((status_code r = 400 /\ exists message, body_of r = Failure message)
        \/ (status_code r = 500 /\ exists e, body_of r = FailureOf e))
    /\ (status_code r = 400 -> (create w req st).2 = st)
    /\ (provider_log (create w req st).2 = provider_log st
        \/ exists call, provider_log (create w req st).2 = provider_log st ++ [call]).
Proof.
  destruct (create_payment_outcomes w req st)
    as [(r & Hrun & Hreply)|[(c & call & e & Hrun)
                            |(c & call & info & Hrun & _)]];
    rewrite Hrun; cbn [fst snd].
  - exists r. split; [reflexivity|]. split; [exact Hreply|].
    split; [reflexivity|]. left. reflexivity.
  - eexists. split; [reflexivity|]. cbn.
    split; [right; split; [reflexivity|exists e; reflexivity]|].
    split; [discriminate|]. right. exists call. reflexivity.
  - eexists. split; [reflexivity|]. cbn.
    split; [right; split; [reflexivity|exists TypeError; reflexivity]|].
    split; [discriminate|]. right. exists call. apply provider_log_written.
Qed.

(** X9. A readable amount above zero and a supported crypto with a currency
    outside [SUPPORTED_CURRENCIES] are refused with 'Unsupported currency'
    and status 400; the rates are not looked up, the provider is not called
    and nothing is written. *)
Theorem create_payment_unsupported_currency (w : world) (req : request) (st : state)
    (amount : pyfloat) :
  py_float (default (ANumber (Fin 0)) (amount_field (json req))) = Return amount ->
  float_le0 amount = false ->
  default "BTC" (crypto_field (json req)) ∈ dom SUPPORTED_CRYPTOS ->
  default "USD" (currency_field (json req)) ∉ SUPPORTED_CURRENCIES ->
  create w req st = (Return (Response (Failure "Unsupported currency") 400), st).
Proof.
  intros Ha Hle Hcry Hcur. apply elem_of_dom in Hcry as [name Hname].
  rewrite create_payment_run, Ha, Hname, Hle.
  rewrite bool_decide_eq_false_2 by exact Hcur. reflexivity.
Qed.

(** X10. The reply 'Unsupported cryptocurrency' is never given: a crypto
    outside [SUPPORTED_CRYPTOS] makes the default description raise KeyError
    before any check, also when a description was posted, and whatever the
    amount that [float()] read the reply is the failure with status 500. *)
Theorem create_payment_unsupported_cryptocurrency (w : world) (req : request) (st : state) :
  (forall r, (create w req st).1 = Return r ->
             body_of r <> Failure "Unsupported cryptocurrency")
  /\ (forall amount,
        py_float (default (ANumber (Fin 0)) (amount_field (json req))) = Return amount ->
        default "BTC" (crypto_field (json req)) ∉ dom SUPPORTED_CRYPTOS ->
        create w req st
        = (Return (Response (FailureOf (KeyError (default "BTC" (crypto_field (json req)))))
                     500), st)).
Proof.
  split.
  - intros r. rewrite create_payment_run.
    destruct (py_float _) as [amount|e]; [|intros [= <-]; discriminate].
    destruct (SUPPORTED_CRYPTOS !! _) as [name|]; [|intros [= <-]; discriminate].
    destruct (float_le0 amount); [intros [= <-]; discriminate|].
    destruct (bool_decide _); cbn [negb]; [|intros [= <-]; discriminate].
    destruct (get_exchange_rates_total w st) as (rs & c & ->). cbv zeta.
    destruct (charge_create w _); [destruct (qrcode_png w _)|];
      intros [= <-]; discriminate.
  - intros amount Ha Hcry. apply not_elem_of_dom in Hcry.
    rewrite create_payment_run, Ha, Hcry. reflexivity.
Qed.

(** X11. A body without the key amount is handled as the amount 0: with a
    supported crypto it is refused with 'Invalid amount' and status 400,
    and nothing changes. *)
Theorem create_payment_missing_amount (w : world) (req : request) (st : state) :
  amount_field (json req) = None ->
  default "BTC" (crypto_field (json req)) ∈ dom SUPPORTED_CRYPTOS ->
  create w req st = (Return (Response (Failure "Invalid amount") 400), st).
Proof.
  intros Hnone Hcry. apply elem_of_dom in Hcry as [name Hname].
  rewrite create_payment_run, Hnone. cbn [default from_option id py_float].
  rewrite Hname. reflexivity.
Qed.

(** X12. For a request that passes the checks, when the provider answers
    the call with a charge, the QR image is made and the history file is
    written, the record of the charge is added to the file as the last one,
    after the records that were there; it is stored with the id and the URL
    of the charge, the status as the text 'PaymentStatus.PENDING', the
    creation instant as text, and without the key completed_at. *)
Theorem create_payment_stored_form (w : world) (req : request) (st : state)
    (amount : pyfloat) (crypto_name : string) :
  py_float (default (ANumber (Fin 0)) (amount_field (json req))) = Return amount ->
  float_le0 amount = false ->
  SUPPORTED_CRYPTOS !! default "BTC" (crypto_field (json req)) = Some crypto_name ->
  default "USD" (currency_field (json req)) ∈ SUPPORTED_CURRENCIES ->
  exists call,
    provider_log (create w req st).2 = provider_log st ++ [call]
    /\ forall charge img,
         charge_create w call = Return charge ->
         qrcode_png w (Charge.hosted_url charge) = Return img ->
         write_history w = WriteOk ->
         exists payment,
           stored_records (create w req st).2 = stored_records st ++ [payment]
           /\ payment !! "id" = Some (JStr (Charge.id charge))
           /\ payment !! "payment_url" = Some (JStr (Charge.hosted_url charge))
           /\ payment !! "status" = Some (JStr "PaymentStatus.PENDING")
           /\ payment !! "timestamp" = Some (JStr (str_datetime (datetime_now w)))
           /\ payment !! "completed_at" = None.
Proof.
  intros Ha Hle Hname Hcur.
  destruct (create_payment_checked SUPPORTED_CURRENCIES SUPPORTED_CRYPTOS w req st amount
              crypto_name Ha Hle Hname Hcur) as (rs & c & _ & Hlog & _ & _ & Hstored).
  cbv zeta in Hlog, Hstored.
  eexists. split; [exact Hlog|].
  intros charge img Hc Hq Hw. rewrite (Hstored charge img Hc Hq).
  eexists. split.
  { match goal with
    | |- context [written w _ ?s] => change (stored_records st) with (stored_records s)
    end.
    apply stored_records_appended. exact Hw. }
  split; [apply stored_form_id|].
  split; [stored_lookup|].
  split; [apply stored_form_status|].
  split; [apply stored_form_timestamp|]. apply stored_form_completed_at.
Qed.

End CreatePaymentMore.

(** ** Reconciliation, continued *)

(** [webhook] either leaves the state as it is or asks for one write of the
    history. *)
Lemma webhook_state (w : world) (req : request) (st : state) :
  (webhook w req st).2 = st \/ exists history, (webhook w req st).2 = written w history st.
Proof.
  destruct (construct_event w (data req) (X_CC_Webhook_Signature req)) as [ev|e] eqn:Hev.
  - destruct (String.eqb (Event.type ev) "charge:confirmed") eqn:Hty.
    + apply String.eqb_eq in Hty. rewrite (webhook_confirmed w req st ev Hev Hty).
      destruct (mark_completed _ _ _) as [history|e]; [right; eauto|left; reflexivity].
    + left. unfold webhook, try_except. rewrite run_lift_bind, Hev, Hty. reflexivity.
  - left. unfold webhook, try_except. rewrite run_lift_bind, Hev. reflexivity.
Qed.

(** [webhook] has no effect outside the history file. *)
Lemma webhook_parts (w : world) (req : request) (st : state) :
  exchange_rate_cache (webhook w req st).2 = exchange_rate_cache st
  /\ ip_requests (webhook w req st).2 = ip_requests st
  /\ provider_log (webhook w req st).2 = provider_log st.
Proof.
  destruct (webhook_state w req st) as [->|[h ->]]; [repeat split|].
  unfold written. destruct (write_history w); repeat split.
Qed.

(** The loop stops with KeyError at the first record without the key id,
    when no record before it carries the id looked for. *)
Lemma mark_completed_missing_id (charge_id : string) (now : datetime)
    (before after : list (gmap string jval)) (p : gmap string jval) :
  Forall (other_id charge_id) before ->
  p !! "id" = None ->
  mark_completed charge_id now (json_load (before ++ p :: after)) = Raise (KeyError "id").
Proof.
  intros Hbefore Hid.
  induction Hbefore as [|q h [v [Hq Hne]] _ IH]; simpl.
  - unfold getitem. rewrite lookup_fmap, Hid. reflexivity.
  - unfold getitem. rewrite lookup_fmap, Hq. simpl.
    rewrite py_eq_str_of_json, bool_decide_eq_false_2 by exact Hne.
    rewrite IH. reflexivity.
Qed.

(** X13. A verified event of any type other than 'charge:confirmed' is
    answered with success and ignored: the history file is neither read nor
    rewritten, and nothing else changes. *)
Theorem webhook_other_event (w : world) (req : request) (st : state) (ev : Event.t) :
  construct_event w (data req) (X_CC_Webhook_Signature req) = Return ev ->
  Event.type ev <> "charge:confirmed" ->
  webhook w req st = (Return (Response Success 200), st).
Proof.
  intros Hev Hty. unfold webhook, try_except. rewrite run_lift_bind, Hev.
  destruct (String.eqb_spec (Event.type ev) "charge:confirmed") as [Heq|_];
    [contradiction|reflexivity].
Qed.

Lemma webhook_other_event_witness :
  webhook Scenario.w_pending_event Demo.notification Demo.st_ch_1
  = (Return (Response Success 200), Demo.st_ch_1).
Proof.
  apply (webhook_other_event Scenario.w_pending_event Demo.notification Demo.st_ch_1
           (Event.mk "charge:pending" "ch_1")); [reflexivity|discriminate].
Defined.

(** X14. When the loop of [webhook] meets a stored record without the key
    id before it has found the charge, the notification fails with the
    KeyError and status 500, and the history file is not rewritten, also if
    a later record carries the id of the charge. *)
Theorem webhook_record_without_id (w : world) (req : request) (st : state) (ev : Event.t)
    (before after : list (gmap string jval)) (p : gmap string jval) :
  construct_event w (data req) (X_CC_Webhook_Signature req) = Return ev ->
  Event.type ev = "charge:confirmed" ->
  stored_records st = before ++ p :: after ->
  Forall (other_id (Event.data_id ev)) before ->
  p !! "id" = None ->
  webhook w req st = (Return (Response (FailureOf (KeyError "id")) 500), st).
Proof.
  intros Hev Hty Hst Hbefore Hid.
  rewrite (webhook_confirmed w req st ev Hev Hty), Hst.
  rewrite (mark_completed_missing_id _ _ _ _ _ Hbefore Hid). reflexivity.
Qed.

Lemma webhook_record_without_id_witness :
  webhook Demo.w_confirm Demo.notification Scenario.st_broken
  = (Return (Response (FailureOf (KeyError "id")) 500), Scenario.st_broken).
Proof.
  apply (webhook_record_without_id Demo.w_confirm Demo.notification Scenario.st_broken
           (Demo.confirmed "ch_1") [] Demo.ledger_ch_1 (<["amount" := JNum (Fin 5)]> ∅));
    [reflexivity|reflexivity|reflexivity|constructor|reflexivity].
Defined.

(** X15. Whatever notification it is given, [webhook] never touches the
    rate cache, the table of the limiter or the provider; and unless its
    write of the history breaks off, the history keeps its length and every
    record stays in its place with every entry other than status and
    completed_at. *)
Theorem webhook_frame (w : world) (req : request) (st : state) :
  exchange_rate_cache (webhook w req st).2 = exchange_rate_cache st
  /\ ip_requests (webhook w req st).2 = ip_requests st
  /\ provider_log (webhook w req st).2 = provider_log st
  /\ (write_history w <> WriteTorn ->
      length (stored_records (webhook w req st).2) = length (stored_records st)
      /\ forall i p,
           stored_records st !! i = Some p ->
           exists p',
             stored_records (webhook w req st).2 !! i = Some p'
             /\ forall k, k <> "status" -> k <> "completed_at" -> p' !! k = p !! k).
Proof.
  destruct (webhook_parts w req st) as (Hc & Hi & Hl).
  split; [exact Hc|]. split; [exact Hi|]. split; [exact Hl|].
  intros Htorn.
  destruct (webhook_ledger w req st) as [[Hw _]|Hshape]; [contradiction|].
  split; [symmetry; exact (Forall2_length _ _ _ Hshape)|].
  intros i p Hp.
  destruct (Forall2_lookup_l _ _ _ _ _ Hshape Hp) as (p' & Hp' & [->| ->]).
  - exists p. split; [exact Hp'|reflexivity].
  - eexists. split; [exact Hp'|].
    intros k Hstatus Hcompleted. apply confirmed_record_other_keys; assumption.
Qed.

(** X16. A verified confirmation of a stored charge is answered with
    success also when the history file cannot be opened for writing; the
    file then keeps the record as it was, and the confirmation is lost
    without a trace in the reply. *)
Theorem webhook_write_refused (w : world) (req : request) (st : state) (ev : Event.t)
    (before after : list (gmap string jval)) (p : gmap string jval) :
  construct_event w (data req) (X_CC_Webhook_Signature req) = Return ev ->
  Event.type ev = "charge:confirmed" ->
  write_history w = WriteRefused ->
  stored_records st = before ++ p :: after ->
  Forall (other_id (Event.data_id ev)) before ->
  p !! "id" = Some (JStr (Event.data_id ev)) ->
  webhook w req st = (Return (Response Success 200), st).
Proof.
  intros Hev Hty Hw Hst Hbefore Hid.
  rewrite (webhook_confirmed w req st ev Hev Hty), Hst.
  rewrite (mark_completed_match _ _ _ _ _ Hbefore Hid).
  unfold written. rewrite Hw. reflexivity.
Qed.

Lemma webhook_write_refused_witness :
  webhook Scenario.w_confirm_refused Demo.notification Demo.st_ch_1
  = (Return (Response Success 200), Demo.st_ch_1).
Proof.
  apply (webhook_write_refused Scenario.w_confirm_refused Demo.notification Demo.st_ch_1
           (Demo.confirmed "ch_1") [] [] (hd ∅ Demo.ledger_ch_1));
    [reflexivity|reflexivity|reflexivity|reflexivity|constructor|reflexivity].
Defined.



(** ** Creation and reconciliation together *)

Lemma well_formed_confirmed_record (now : datetime) (p : gmap string jval) :
  well_formed_record p -> well_formed_record (confirmed_record now p).
Proof.
  intros [[i Hid] _]. split.
  - exists i. rewrite confirmed_record_id. exact Hid.
  - right. unfold confirmed_record. split.
    + rewrite lookup_insert_ne by discriminate. apply lookup_insert_eq.
    + exists now. apply lookup_insert_eq.
Qed.

Lemma well_formed_stored_form (info : PaymentInfo.t) :
  PaymentInfo.status info = PENDING ->
  well_formed_record (to_json <$> PaymentInfo.__dict__ info).
Proof.
  intros Hst. split.
  - exists (PaymentInfo.id info). apply stored_form_id.
  - left. split; [rewrite stored_form_status, Hst; reflexivity|].
    apply stored_form_completed_at.
Qed.

(** With an id in every record, the loop of [webhook] raises nothing. *)
Lemma mark_completed_returns (charge_id : string) (now : datetime)
    (history : list (gmap string jval)) :
  Forall (fun p : gmap string jval => is_Some (p !! "id")) history ->
  exists history', mark_completed charge_id now (json_load history) = Return history'.
Proof.
  induction 1 as [|p h [v Hv] _ [h' IH]]; simpl; [eauto|].
  unfold getitem. rewrite lookup_fmap, Hv. simpl.
  destruct (py_eq_str _ _); [eauto|]. rewrite IH. eauto.
Qed.

Lemma webhook_keeps_well_formed (w : world) (req : request) (st : state) :
  Forall well_formed_record (stored_records st) ->
  Forall well_formed_record (stored_records (webhook w req st).2).
Proof.
  intros Hwf. destruct (webhook_ledger w req st) as [[_ ->]|Hshape]; [constructor|].
  apply Forall_lookup. intros i p' Hp'.
  destruct (Forall2_lookup_r _ _ _ _ _ Hshape Hp') as (p & Hp & Hrel).
  pose proof (proj1 (Forall_lookup _ _) Hwf i p Hp) as Hwfp.
  destruct Hrel as [->| ->]; [exact Hwfp|].
  apply well_formed_confirmed_record. exact Hwfp.
Qed.

Section Lifecycle.

Context (SUPPORTED_CURRENCIES : list string) (SUPPORTED_CRYPTOS : gmap string string).

Local Abbreviation create := (create_payment SUPPORTED_CURRENCIES SUPPORTED_CRYPTOS).
Local Abbreviation route := (create_payment_route SUPPORTED_CURRENCIES SUPPORTED_CRYPTOS).
Local Abbreviation reached := (reachable SUPPORTED_CURRENCIES SUPPORTED_CRYPTOS).

(** What [create_payment] does to the table of the limiter, to the provider
    log and to the stored records. *)
Lemma create_payment_effect (w : world) (req : request) (st : state) :
  ip_requests (create w req st).2 = ip_requests st
  /\ (provider_log (create w req st).2 = provider_log st
      \/ exists call, provider_log (create w req st).2 = provider_log st ++ [call])
  /\ (stored_records (create w req st).2 = stored_records st
      \/ stored_records (create w req st).2 = []
      \/ exists info,
           PaymentInfo.status info = PENDING
           /\ write_history w = WriteOk
           /\ stored_records (create w req st).2
              = stored_records st ++ [to_json <$> PaymentInfo.__dict__ info]).
Proof.
  split; [|split].
  - destruct (create_payment_outcomes SUPPORTED_CURRENCIES SUPPORTED_CRYPTOS w req st)
      as [(r & Hrun & _)|[(c & call & e & Hrun)|(c & call & info & Hrun & _)]];
      rewrite Hrun; cbn [snd]; [reflexivity|reflexivity|].
    unfold written. destruct (write_history w); reflexivity.
  - destruct (create_payment_outcomes SUPPORTED_CURRENCIES SUPPORTED_CRYPTOS w req st)
      as [(r & Hrun & _)|[(c & call & e & Hrun)|(c & call & info & Hrun & _)]];
      rewrite Hrun; cbn [snd]; [left; reflexivity|right; eauto|].
    right. exists call. apply provider_log_written.
  - destruct (create_payment_ledger SUPPORTED_CURRENCIES SUPPORTED_CRYPTOS w req st)
      as [H|[[_ H]|(Hw & info & Hst & H)]]; [left; exact H|right; left; exact H|].
    right. right. exists info. split; [exact Hst|]. split; [exact Hw|exact H].
Qed.

Lemma create_payment_keeps_well_formed (w : world) (req : request) (st : state) :
  Forall well_formed_record (stored_records st) ->
  Forall well_formed_record (stored_records (create w req st).2).
Proof.
  intros Hwf.
  destruct (create_payment_effect w req st)
    as (_ & _ & [->|[->|(info & Hst & _ & ->)]]);
    [exact Hwf|constructor|].
  apply Forall_app. split; [exact Hwf|].
  constructor; [|constructor]. apply well_formed_stored_form. exact Hst.
Qed.

Lemma route_state (w : world) (req : request) (st : state) :
  (route w req st).2 = st
  \/ (ip_requests st = ∅
      /\ (route w req st).2
         = (create w req (set_ip_requests (<[remote_addr req := [time_time w]]> ∅) st)).2).
Proof.
  unfold create_payment_route. rewrite rate_limit_run.
  destruct (decide _) as [Hempty|_]; [right; split; [exact Hempty|reflexivity]|left; reflexivity].
Qed.

(** X18. For a request that passes the checks, when the provider answers
    with a charge, the QR image is made and the history is written, no
    earlier record carrying the id of the charge, the verified confirmation
    of that id completes the charge: the reply is success, the record of
    the charge, still the last one, has the status 'completed' and the
    instant of the notification in completed_at, and the records before it
    are as they were. *)
Theorem create_then_confirm_completes (w1 w2 : world) (req1 req2 : request) (st : state)
    (amount : pyfloat) (crypto_name : string) (charge : Charge.t) (img : string)
    (ev : Event.t) :
  py_float (default (ANumber (Fin 0)) (amount_field (json req1))) = Return amount ->
  float_le0 amount = false ->
  SUPPORTED_CRYPTOS !! default "BTC" (crypto_field (json req1)) = Some crypto_name ->
  default "USD" (currency_field (json req1)) ∈ SUPPORTED_CURRENCIES ->
  (forall call, charge_create w1 call = Return charge) ->
  qrcode_png w1 (Charge.hosted_url charge) = Return img ->
  write_history w1 = WriteOk ->
  Forall (other_id (Charge.id charge)) (stored_records st) ->
  construct_event w2 (data req2) (X_CC_Webhook_Signature req2) = Return ev ->
  Event.type ev = "charge:confirmed" ->
  Event.data_id ev = Charge.id charge ->
  write_history w2 = WriteOk ->
  let st1 := (create w1 req1 st).2 in
  exists payment paid,
    stored_records st1 = stored_records st ++ [payment]
    /\ payment !! "id" = Some (JStr (Charge.id charge))
    /\ payment !! "status" = Some (JStr "PaymentStatus.PENDING")
    /\ paid = confirmed_record (datetime_now w2) payment
    /\ (webhook w2 req2 st1).1 = Return (Response Success 200)
    /\ stored_records (webhook w2 req2 st1).2 = stored_records st ++ [paid]
    /\ paid !! "id" = Some (JStr (Charge.id charge))
    /\ paid !! "status" = Some (JStr "completed")
    /\ paid !! "completed_at" = Some (JStr (isoformat (datetime_now w2))).
Proof.
  intros Ha Hle Hname Hcur Hprovider Hq Hw1 Hfresh Hev Hty Hid Hw2 st1.
  destruct (create_payment_checked SUPPORTED_CURRENCIES SUPPORTED_CRYPTOS w1 req1 st amount
              crypto_name Ha Hle Hname Hcur) as (rs & c & _ & _ & _ & _ & Hstored).
  cbv zeta in Hstored.
  specialize (Hstored charge img (Hprovider _) Hq).
  assert (Hst1 : exists info,
             PaymentInfo.id info = Charge.id charge
             /\ PaymentInfo.status info = PENDING
             /\ stored_records st1
                = stored_records st ++ [to_json <$> PaymentInfo.__dict__ info]).
  { subst st1. rewrite Hstored. eexists. split; [|split]; cycle 2.
    - match goal with
      | |- context [written w1 _ ?s] => change (stored_records st) with (stored_records s)
      end.
      apply stored_records_appended. exact Hw1.
    - reflexivity.
    - reflexivity. }
  destruct Hst1 as (info & Hinfo & Hpending & Hst1).
  assert (Hp : (to_json <$> PaymentInfo.__dict__ info) !! "id"
               = Some (JStr (Event.data_id ev))).
  { rewrite Hid, <- Hinfo. apply stored_form_id. }
  rewrite <- Hid in Hfresh.
  exists (to_json <$> PaymentInfo.__dict__ info),
         (confirmed_record (datetime_now w2) (to_json <$> PaymentInfo.__dict__ info)).
  split; [exact Hst1|].
  split; [rewrite <- Hinfo; apply stored_form_id|].
  split; [rewrite stored_form_status, Hpending; reflexivity|].
  split; [reflexivity|].
  rewrite (webhook_marks w2 req2 st1 ev (stored_records st) []
             (to_json <$> PaymentInfo.__dict__ info) Hev Hty Hw2 Hst1 Hfresh Hp).
  cbn [fst snd]. split; [reflexivity|]. split; [reflexivity|].
  split; [rewrite confirmed_record_id, <- Hinfo; apply stored_form_id|].
  unfold confirmed_record.
  split; [rewrite lookup_insert_ne by discriminate|]; apply lookup_insert_eq.
Qed.

(** X19. The records keep their shape: if every stored record has an id and
    is either pending (status 'PaymentStatus.PENDING', no completed_at) or
    completed (status 'completed', completed_at an ISO instant), the same
    holds after [create_payment] and after [webhook], whatever they are
    given. *)
Theorem handlers_keep_well_formed (w : world) (req : request) (st : state) :
  Forall well_formed_record (stored_records st) ->
  Forall well_formed_record (stored_records (create w req st).2)
  /\ Forall well_formed_record (stored_records (route w req st).2)
  /\ Forall well_formed_record (stored_records (webhook w req st).2).
Proof.
  intros Hwf. split; [apply create_payment_keeps_well_formed; exact Hwf|].
  split; [|apply webhook_keeps_well_formed; exact Hwf].
  destruct (route_state w req st) as [->|[_ ->]]; [exact Hwf|].
  apply create_payment_keeps_well_formed. exact Hwf.
Qed.

Lemma reachable_records (st : state) :
  reached st -> Forall well_formed_record (stored_records st).
Proof.
  induction 1 as [|w req st _ IH|w req st _ IH]; [constructor| |].
  - destruct (route_state w req st) as [->|[_ ->]]; [exact IH|].
    apply create_payment_keeps_well_formed. exact IH.
  - apply webhook_keeps_well_formed. exact IH.
Qed.

(** X20. In every state that the process, started without a history file,
    reaches through /create_payment and /webhook, a verified
    'charge:confirmed' notification is answered with success, whatever
    charge it names: the stored records all have an id, so the loop of
    [webhook] cannot fail. *)
Theorem reachable_confirmation_succeeds (st : state) (w : world) (req : request)
    (ev : Event.t) :
  reached st ->
  construct_event w (data req) (X_CC_Webhook_Signature req) = Return ev ->
  Event.type ev = "charge:confirmed" ->
  Forall well_formed_record (stored_records st)
  /\ (webhook w req st).1 = Return (Response Success 200).
Proof.
  intros Hreach Hev Hty.
  pose proof (reachable_records st Hreach) as Hwf. split; [exact Hwf|].
  rewrite (webhook_confirmed w req st ev Hev Hty).
  destruct (mark_completed_returns (Event.data_id ev) (datetime_now w) (stored_records st))
    as [h' ->]; [|reflexivity].
  eapply Forall_impl; [exact Hwf|]. intros p [[i Hi] _]. eauto.
Qed.

(** X21. Through the route /create_payment as it is registered, the
    process, started without a history file, calls the provider at most once
    and stores at most one record in its whole life: the first request fills
    the table of the limiter, and no later request gets past it. *)
Theorem reachable_at_most_one_charge (st : state) :
  reached st ->
  (length (provider_log st) <= 1)%nat /\ (length (stored_records st) <= 1)%nat.
Proof.
  intros Hreach.
  assert (Hinv : (ip_requests st = ∅ /\ provider_log st = [] /\ stored_records st = [])
                 \/ (ip_requests st <> ∅
                     /\ (length (provider_log st) <= 1)%nat
                     /\ (length (stored_records st) <= 1)%nat)).
  { induction Hreach as [|w req st _ IH|w req st _ IH].
    - left. repeat split.
    - destruct (route_state w req st) as [->|[Hempty ->]]; [exact IH|].
      destruct IH as [(_ & Hlog & Hrec)|(Hsome & _)]; [|contradiction].
      right.
      destruct (create_payment_effect w req
                  (set_ip_requests (<[remote_addr req := [time_time w]]> ∅) st))
        as (Hip & Hcalls & Hrecs).
      split.
      { rewrite Hip. cbn. intros Hnil.
        apply (f_equal (fun m => m !! remote_addr req)) in Hnil.
        rewrite lookup_insert_eq, lookup_empty in Hnil. discriminate Hnil. }
      split.
      { destruct Hcalls as [->|[call ->]]; cbn; rewrite Hlog; cbn; lia. }
      destruct Hrecs as [->|[->|(info & _ & _ & ->)]];
        change (stored_records (set_ip_requests _ st)) with (stored_records st);
        rewrite ?Hrec; cbn; lia.
    - destruct (webhook_parts w req st) as (_ & Hip & Hlog).
      assert (Hlen : (length (stored_records (webhook w req st).2)
                      <= length (stored_records st))%nat).
      { destruct (webhook_ledger w req st) as [[_ ->]|Hshape]; [cbn; lia|].
        rewrite <- (Forall2_length _ _ _ Hshape). lia. }
      destruct IH as [(He & Hl & Hr)|(Hsome & Hl & Hr)].
      + left. rewrite Hip, Hlog. split; [exact He|]. split; [exact Hl|].
        rewrite Hr in Hlen. cbn in Hlen.
        destruct (stored_records (webhook w req st).2); [reflexivity|cbn in Hlen; lia].
      + right. rewrite Hip, Hlog. split; [exact Hsome|]. split; [exact Hl|lia]. }
  destruct Hinv as [(_ & -> & ->)|(_ & Hl & Hr)]; cbn; lia.
Qed.

(** X22. Completed is final: a stored record with the status 'completed'
    still has it after [create_payment] and after [webhook], whatever they
    are given, as long as the history still holds a record at its place. *)
Theorem completed_stays_completed (w : world) (req : request) (st : state)
    (i : nat) (p : gmap string jval) :
  stored_records st !! i = Some p ->
  p !! "status" = Some (JStr "completed") ->
  (forall p', stored_records (create w req st).2 !! i = Some p' ->
              p' !! "status" = Some (JStr "completed"))
  /\ (forall p', stored_records (webhook w req st).2 !! i = Some p' ->
                 p' !! "status" = Some (JStr "completed")).
Proof.
  intros Hp Hdone. split.
  - intros p' Hp'.
    pose proof (create_payment_keeps_records SUPPORTED_CURRENCIES SUPPORTED_CRYPTOS
                  w req st i p' Hp' (lookup_lt_Some _ _ _ Hp)) as Hsame.
    rewrite Hp in Hsame. injection Hsame as <-. exact Hdone.
  - intros p' Hp'.
    destruct (webhook_ledger w req st) as [[_ Hnil]|Hshape].
    + rewrite Hnil in Hp'. discriminate Hp'.
    + destruct (Forall2_lookup_lr _ _ _ _ _ _ Hshape Hp Hp') as [->| ->]; [exact Hdone|].
      unfold confirmed_record. rewrite lookup_insert_ne by discriminate.
      apply lookup_insert_eq.
Qed.

End Lifecycle.

(** ** The history route *)

Section AuthProperties.

Context (jwt_decode : string -> result (gmap string jval)).

Local Abbreviation user_of := (current_user_of jwt_decode).
Local Abbreviation guarded := (token_required jwt_decode).

(** X23. Without a header Authorization, with an empty one, with a token
    that [jwt.decode] rejects or with a payload that has no key user, the
    decorated function is not called at all: the reply is a message with
    status 401 -- 'Token is missing' in the first two cases, 'Token is
    invalid' in the others -- and the state is untouched. *)
Theorem token_required_refuses (f : jval -> M history_response)
    (Authorization : option string) (st : state) :
  (forall token, Authorization = Some token -> token <> "" ->
                 exists e, user_of token = Raise e) ->
  exists message,
    guarded f Authorization st = (Return (HistoryResponse (Message message) 401), st)
    /\ (message = "Token is missing" <-> (Authorization = None \/ Authorization = Some ""))
    /\ (message = "Token is invalid" <->
        exists token, Authorization = Some token /\ token <> "")
    /\ (forall payload token, jwt_decode token = Return payload ->
          payload !! "user" = None -> user_of token = Raise (KeyError "user")).
Proof.
  intros Hno.
  assert (Hpayload : forall payload token, jwt_decode token = Return payload ->
            payload !! "user" = None -> user_of token = Raise (KeyError "user")).
  { intros payload token Hd Hu. unfold current_user_of, getitem. rewrite Hd, Hu.
    reflexivity. }
  unfold token_required. destruct Authorization as [token|].
  - destruct (String.eqb_spec token "") as [->|Hne].
    + exists "Token is missing". split; [reflexivity|]. split; [tauto|].
      split; [|exact Hpayload]. split; [discriminate|].
      intros (t & [= <-] & Ht). contradiction.
    + destruct (Hno token eq_refl Hne) as [e ->].
      exists "Token is invalid". split; [reflexivity|]. split.
      * split; [discriminate|]. intros [H|[= H]]; [discriminate|contradiction].
      * split; [|exact Hpayload]. split; [|reflexivity]. intros _. eauto.
  - exists "Token is missing". split; [reflexivity|]. split; [tauto|].
    split; [|exact Hpayload]. split; [discriminate|]. intros (t & Ht & _). discriminate Ht.
Qed.

(** X24. With a token that decodes to a payload with a user, the history
    route answers 200 with the records of the history file as they are read
    (none when the file is missing or unreadable), whoever the user is; it
    never answers 500 and changes nothing. *)
Theorem get_payment_history_reads_file (Authorization : option string) (token : string)
    (user : jval) (st : state) :
  Authorization = Some token ->
  token <> "" ->
  user_of token = Return user ->
  guarded get_payment_history Authorization st
  = (Return (HistoryResponse (History (json_load (stored_records st))) 200), st)
  /\ (payment_history_json st = FileMissing \/ payment_history_json st = FileCorrupt ->
      (guarded get_payment_history Authorization st).1
      = Return (HistoryResponse (History []) 200)).
Proof.
  intros -> Hne Huser.
  assert (Hrun : guarded get_payment_history (Some token) st
                 = (Return (HistoryResponse (History (json_load (stored_records st))) 200),
                    st)).
  { unfold token_required. destruct (String.eqb_spec token "") as [Heq|_]; [contradiction|].
    rewrite Huser. unfold get_payment_history, try_except, load_payment_history, stored_records.
    unfold mbind, M_bind, get, mret, M_ret.
    destruct (payment_history_json st); reflexivity. }
  split; [exact Hrun|].
  intros Hfile. rewrite Hrun. unfold stored_records.
  destruct Hfile as [-> | ->]; reflexivity.
Qed.

End AuthProperties.

(** ** The further statements at the sample inputs *)

Lemma create_payment_unsupported_currency_witness :
  create_payment Demo.currencies Demo.cryptos Demo.w_create Scenario.req_unknown_currency
    initial_state
  = (Return (Response (Failure "Unsupported currency") 400), initial_state).
Proof.
  apply (create_payment_unsupported_currency Demo.currencies Demo.cryptos Demo.w_create
           Scenario.req_unknown_currency initial_state (Fin 25));
    [reflexivity|reflexivity|exact demo_btc_supported|].
  intros Hin. apply list_elem_of_In in Hin. simpl in Hin.
  destruct Hin as [H|[H|[H|[]]]]; discriminate H.
Defined.

Lemma create_payment_missing_amount_witness :
  create_payment Demo.currencies Demo.cryptos Demo.w_create Scenario.req_no_amount
    initial_state
  = (Return (Response (Failure "Invalid amount") 400), initial_state).
Proof.
  apply (create_payment_missing_amount Demo.currencies Demo.cryptos Demo.w_create
           Scenario.req_no_amount initial_state); [reflexivity|exact demo_btc_supported].
Defined.

Lemma create_payment_stored_form_witness :
  exists payment,
    stored_records (create_payment Demo.currencies Demo.cryptos Demo.w_create Demo.req_25
                      initial_state).2 = [] ++ [payment]
    /\ payment !! "status" = Some (JStr "PaymentStatus.PENDING")
    /\ payment !! "timestamp" = Some (JStr "2024-01-15 12:00:00").
Proof.
  destruct (create_payment_stored_form Demo.currencies Demo.cryptos Demo.w_create
              Demo.req_25 initial_state (Fin 25) "Bitcoin" eq_refl eq_refl eq_refl
              demo_usd_supported)
    as (call & Hlog & Hstored).
  destruct (Hstored Demo.ch_1 ("89504e47:" +:+ "https://pay.example/ch_1"))
    as (payment & Hrec & _ & _ & Hstatus & Htime & _).
  - injection Hlog as <-. reflexivity.
  - reflexivity.
  - reflexivity.
  - exists payment. split; [exact Hrec|]. split; [exact Hstatus|exact Htime].
Defined.

Lemma create_then_confirm_completes_witness :
  let st1 := (create_payment Demo.currencies Demo.cryptos Demo.w_create Demo.req_25
                initial_state).2 in
  (webhook Demo.w_confirm_again Demo.notification st1).1 = Return (Response Success 200)
  /\ exists paid,
       stored_records (webhook Demo.w_confirm_again Demo.notification st1).2 = [] ++ [paid]
       /\ paid !! "status" = Some (JStr "completed")
       /\ paid !! "completed_at" = Some (JStr "2024-01-15T12:05:00.250000").
Proof.
  intros st1.
  destruct (create_then_confirm_completes Demo.currencies Demo.cryptos Demo.w_create
              Demo.w_confirm_again Demo.req_25 Demo.notification initial_state (Fin 25)
              "Bitcoin" Demo.ch_1 ("89504e47:" +:+ "https://pay.example/ch_1")
              (Demo.confirmed "ch_1") eq_refl eq_refl eq_refl demo_usd_supported
              (fun _ => eq_refl) eq_refl eq_refl (Forall_nil_2 _) eq_refl eq_refl
              eq_refl eq_refl)
    as (payment & paid & _ & _ & _ & _ & Hreply & Hrec & _ & Hstatus & Hdone).
  split; [exact Hreply|]. exists paid. split; [exact Hrec|].
  split; [exact Hstatus|exact Hdone].
Defined.

Lemma ledger_ch_1_well_formed : Forall well_formed_record (stored_records Demo.st_ch_1).
Proof.
  change (stored_records Demo.st_ch_1) with Demo.ledger_ch_1.
  unfold Demo.ledger_ch_1. apply Forall_cons. split; [|apply Forall_nil_2].
  split; [exists "ch_1"; reflexivity|].
  left. split; reflexivity.
Qed.

Lemma handlers_keep_well_formed_witness :
  Forall well_formed_record
    (stored_records (webhook Demo.w_confirm Demo.notification Demo.st_ch_1).2).
Proof.
  exact (proj2 (proj2 (handlers_keep_well_formed Demo.currencies Demo.cryptos Demo.w_confirm
                         Demo.notification Demo.st_ch_1 ledger_ch_1_well_formed))).
Defined.

Lemma reachable_confirmation_succeeds_witness :
  (webhook Demo.w_confirm_unknown Demo.notification
     (create_payment_route Demo.currencies Demo.cryptos Demo.w_create Demo.req_25
        initial_state).2).1
  = Return (Response Success 200).
Proof.
  exact (proj2 (reachable_confirmation_succeeds Demo.currencies Demo.cryptos _
                  Demo.w_confirm_unknown Demo.notification (Demo.confirmed "ch_9")
                  (reachable_create_payment _ _ Demo.w_create Demo.req_25 _
                     (reachable_start _ _))
                  eq_refl eq_refl)).
Defined.

Lemma reachable_at_most_one_charge_witness :
  let st2 :=
    (create_payment_route Demo.currencies Demo.cryptos Scenario.w_one_hour Demo.req_alice
       (create_payment_route Demo.currencies Demo.cryptos Demo.w_create Demo.req_25
          initial_state).2).2 in
  (length (provider_log st2) <= 1)%nat /\ (length (stored_records st2) <= 1)%nat.
Proof.
  apply (reachable_at_most_one_charge Demo.currencies Demo.cryptos).
  apply reachable_create_payment, reachable_create_payment, reachable_start.
Defined.

Lemma completed_stays_completed_witness :
  let st1 := (webhook Demo.w_confirm Demo.notification Demo.st_ch_1).2 in
  let paid := confirmed_record Demo.noon (hd ∅ Demo.ledger_ch_1) in
  stored_records (webhook Scenario.w_pending_event Demo.notification st1).2 !! 0%nat
  = Some paid
  /\ paid !! "status" = Some (JStr "completed").
Proof.
  intros st1 paid.
  assert (Hafter : stored_records
                     (webhook Scenario.w_pending_event Demo.notification st1).2 !! 0%nat
                   = Some paid) by (vm_compute; reflexivity).
  split; [exact Hafter|].
  refine (proj2 (completed_stays_completed Demo.currencies Demo.cryptos
                   Scenario.w_pending_event Demo.notification st1 0 paid _ _) paid Hafter).
  - vm_compute. reflexivity.
  - vm_compute. reflexivity.
Defined.

Lemma token_required_refuses_witness :
  token_required Scenario.jwt_stub get_payment_history (Some "forged") Demo.st_ch_1
  = (Return (HistoryResponse (Message "Token is invalid") 401), Demo.st_ch_1).
Proof.
  destruct (token_required_refuses Scenario.jwt_stub get_payment_history (Some "forged")
              Demo.st_ch_1) as (message & Hrun & _ & Hinvalid & _).
  - intros token [= <-] _. eexists. reflexivity.
  - rewrite Hrun. f_equal. f_equal. f_equal. f_equal.
    apply Hinvalid. exists "forged". split; [reflexivity|discriminate].
Defined.

Lemma get_payment_history_reads_file_witness :
  token_required Scenario.jwt_stub get_payment_history (Some "good") Demo.st_ch_1
  = (Return (HistoryResponse (History (json_load Demo.ledger_ch_1)) 200), Demo.st_ch_1).
Proof.
  refine (proj1 (get_payment_history_reads_file Scenario.jwt_stub (Some "good") "good"
                   (JStr "alice") Demo.st_ch_1 eq_refl _ eq_refl)).
  discriminate.
Defined.
